(** * Govee OpenAPI light entity: device proxy and capability resolver

    A shallow embedding of [light.py] (class [GoveeLight]) and the
    properties of its polling / command logic.

    Python values that come out of [response.json()] or out of the device
    descriptor are modelled by the type [json]; Python exceptions by
    [PyExn]; the entity's mutable attributes by the record [GoveeLight];
    the outside world (the vendor HTTP API, [uuid.uuid4], the logger and
    the host framework's state machine) by an oracle [Env] and a
    chronological trace of [Event]s. *)

From Stdlib Require Import ZArith List String Bool Lia.
From Stdlib Require Import Floats.SpecFloat.
Import ListNotations.
Local Open Scope string_scope.
Local Open Scope Z_scope.

(* ================================================================== *)
(** ** Python values *)

(** What [json.loads] can produce: [None], [bool], [int] (unbounded),
    [float] (IEEE binary64, kept as its specification value), [str],
    [list] and [dict] with string keys in insertion order. *)
#[warnings="-register-all"]
Inductive json : Type :=
| JNull
| JBool (b : bool)
| JInt (n : Z)
| JFloat (f : spec_float)
| JStr (s : string)
| JList (items : list json)
| JDict (fields : list (string * json)).

Inductive PyExn : Type :=
| KeyError (key : string)
| TypeError (msg : string)
| AttributeError (attr : string)
| ClientError (detail : string)     (* raised by [session.post] *)
| ContentTypeError.                 (* raised by [response.json()] *)

(** Result of evaluating a Python expression: a value or a raised
    exception. *)
Inductive Outcome (A : Type) : Type :=
| Ret (a : A)
| Raise (e : PyExn).
Arguments Ret {A} a.
Arguments Raise {A} e.

Fixpoint dict_lookup (key : string) (fields : list (string * json)) : option json :=
  match fields with
  | [] => None
  | (k, v) :: rest => if String.eqb k key then Some v else dict_lookup key rest
  end.

(** [obj[key]] with a [str] key. *)
Definition py_getitem (obj : json) (key : string) : Outcome json :=
  match obj with
  | JDict fields =>
      match dict_lookup key fields with
      | Some v => Ret v
      | None => Raise (KeyError key)
      end
  | JList _ => Raise (TypeError "list indices must be integers or slices, not str")
  | JStr _ => Raise (TypeError "string indices must be integers, not 'str'")
  | JNull => Raise (TypeError "'NoneType' object is not subscriptable")
  | JBool _ => Raise (TypeError "'bool' object is not subscriptable")
  | JInt _ => Raise (TypeError "'int' object is not subscriptable")
  | JFloat _ => Raise (TypeError "'float' object is not subscriptable")
  end.

(** [obj.get(key, default)]; only [dict] has the method. *)
Definition py_get (obj : json) (key : string) (default : json) : Outcome json :=
  match obj with
  | JDict fields =>
      match dict_lookup key fields with
      | Some v => Ret v
      | None => Ret default
      end
  | _ => Raise (AttributeError "get")
  end.

Fixpoint chars_of (s : string) : list json :=
  match s with
  | EmptyString => []
  | String c rest => JStr (String c EmptyString) :: chars_of rest
  end.

(** The items a [for item in obj] visits. *)
Definition py_iter (obj : json) : Outcome (list json) :=
  match obj with
  | JList items => Ret items
  | JDict fields => Ret (map (fun kv => JStr (fst kv)) fields)
  | JStr s => Ret (chars_of s)
  | JNull => Raise (TypeError "'NoneType' object is not iterable")
  | JBool _ => Raise (TypeError "'bool' object is not iterable")
  | JInt _ => Raise (TypeError "'int' object is not iterable")
  | JFloat _ => Raise (TypeError "'float' object is not iterable")
  end.

(** [obj == s] for a [str] [s]. *)
Definition py_eq_str (obj : json) (s : string) : bool :=
  match obj with
  | JStr t => String.eqb t s
  | _ => false
  end.

(** Exact comparison of a binary64 value with an integer. *)
Definition float_eq_int (f : spec_float) (n : Z) : bool :=
  match f with
  | S754_zero _ => n =? 0
  | S754_finite s m e =>
      let v := if s then Z.neg m else Z.pos m in
      if 0 <=? e then v * 2 ^ e =? n else v =? n * 2 ^ (- e)
  | S754_infinity _ => false
  | S754_nan => false
  end.

(** [obj == n] for an [int] [n]: [True == 1] and [1.0 == 1] hold. *)
Definition py_eq_int (obj : json) (n : Z) : bool :=
  match obj with
  | JInt m => m =? n
  | JBool b => (if b then 1 else 0) =? n
  | JFloat f => float_eq_int f n
  | _ => false
  end.

(** Truth value, as tested by [not obj]. *)
Definition py_truthy (obj : json) : bool :=
  match obj with
  | JNull => false
  | JBool b => b
  | JInt n => negb (n =? 0)
  | JFloat (S754_zero _) => false
  | JFloat _ => true
  | JStr s => negb (String.eqb s "")
  | JList items => match items with [] => false | _ => true end
  | JDict fields => match fields with [] => false | _ => true end
  end.

(** [str(b)] for a [bool]. *)
Definition py_str_bool (b : bool) : string :=
  if b then "True" else "False".

(** [next((item for item in items if item["type"] == name), None)]:
    the generator evaluates [item["type"]] on every item it passes, so a
    lookup error on an earlier item escapes from [next]. *)
Fixpoint next_with_type (items : list json) (name : string) : Outcome json :=
  match items with
  | [] => Ret JNull
  | item :: rest =>
      match py_getitem item "type" with
      | Raise e => Raise e
      | Ret t => if py_eq_str t name then Ret item else next_with_type rest name
      end
  end.

(* ================================================================== *)
(** ** The entity and its environment *)

Record GoveeLight : Type := mkGoveeLight {
  _device : json;
  _api_key : string;
  _state : bool;
  _name : json;
  _unique_id : json;
  _brightness : Z;
  _rgb_color : Z * Z * Z;
  _skip_next_update : bool
}.

Definition set_state (b : bool) (l : GoveeLight) : GoveeLight :=
  mkGoveeLight (_device l) (_api_key l) b (_name l) (_unique_id l)
               (_brightness l) (_rgb_color l) (_skip_next_update l).

Definition set_skip_next_update (b : bool) (l : GoveeLight) : GoveeLight :=
  mkGoveeLight (_device l) (_api_key l) (_state l) (_name l) (_unique_id l)
               (_brightness l) (_rgb_color l) b.

Inductive LogLevel : Type := DEBUG | INFO | ERROR.

(** What the entity does to the outside world. *)
Inductive Event : Type :=
| EvLog (level : LogLevel) (fmt : string) (args : list json)
| EvPost (url : string) (headers : json) (body : json)
| EvWriteHaState (is_on : bool).

(** Answer of the vendor API to one POST. *)
Inductive HttpOutcome : Type :=
| HttpFail (detail : string)                       (* no response at all *)
| HttpResponse (status : Z) (body : option json).  (* [None]: body is not JSON *)

(** The oracle: the [n]-th UUID drawn and the answer to the [n]-th POST. *)
Record Env : Type := mkEnv {
  uuid4 : nat -> string;
  http : nat -> HttpOutcome
}.

Record World : Type := mkWorld {
  light : GoveeLight;
  trace : list Event;      (* oldest first *)
  uuids : nat              (* UUIDs drawn so far *)
}.

Definition is_post (ev : Event) : bool :=
  match ev with EvPost _ _ _ => true | _ => false end.

(** Number of network exchanges performed so far. *)
Definition posts (w : World) : nat :=
  List.length (filter is_post (trace w)).

(* ================================================================== *)
(** ** State-and-exception monad

    Attribute writes and emitted events survive a raised exception, as
    they do in Python. *)

Definition M (A : Type) : Type := World -> Outcome A * World.

Definition ret {A} (a : A) : M A := fun w => (Ret a, w).

Definition raise {A} (e : PyExn) : M A := fun w => (Raise e, w).

Definition bind {A B} (c : M A) (k : A -> M B) : M B :=
  fun w =>
    match c w with
    | (Ret a, w') => k a w'
    | (Raise e, w') => (Raise e, w')
    end.

Definition lift {A} (o : Outcome A) : M A := fun w => (o, w).

Declare Scope py_scope.
Delimit Scope py_scope with py.
Notation "x <- c ;; k" := (bind c (fun x => k))
  (at level 61, c at next level, right associativity) : py_scope.
Notation "c ;; k" := (bind c (fun _ => k))
  (at level 61, right associativity) : py_scope.
Local Open Scope py_scope.

Definition get_self : M GoveeLight := fun w => (Ret (light w), w).

Definition modify_self (f : GoveeLight -> GoveeLight) : M unit :=
  fun w => (Ret tt, mkWorld (f (light w)) (trace w) (uuids w)).

Definition emit (ev : Event) : M unit :=
  fun w => (Ret tt, mkWorld (light w) (trace w ++ [ev]) (uuids w)).

Definition log (level : LogLevel) (fmt : string) (args : list json) : M unit :=
  emit (EvLog level fmt args).

(* ================================================================== *)
(** ** class GoveeLight *)

(** [GoveeLight.__init__(self, device, api_key)]. *)
Definition GoveeLight_init (device : json) (api_key : string) : Outcome GoveeLight :=
  match py_getitem device "deviceName" with
  | Raise e => Raise e
  | Ret name =>
      match py_getitem device "device" with
      | Raise e => Raise e
      | Ret unique_id =>
          Ret (mkGoveeLight device api_key false name unique_id
                            255 (255, 255, 255) false)
      end
  end.

Section Proxy.

(** [BASE_API_URL] comes from [const.py]; the oracle [env] stands for
    the vendor API and [uuid.uuid4]. *)
Variable BASE_API_URL : string.
Variable env : Env.

Definition _API_BASE : string := BASE_API_URL ++ "/router/api/v1".

(** [str(uuid.uuid4())]. *)
Definition fresh_uuid : M json :=
  fun w => (Ret (JStr (uuid4 env (uuids w))),
            mkWorld (light w) (trace w) (S (uuids w))).

(** [session.post(api_url, json=payload, headers=headers)]: the request
    goes out, then the oracle answers. *)
Definition session_post (api_url : string) (payload headers : json)
  : M (Z * option json) :=
  fun w =>
    let w' := mkWorld (light w) (trace w ++ [EvPost api_url headers payload]) (uuids w) in
    match http env (posts w) with
    | HttpFail detail => (Raise (ClientError detail), w')
    | HttpResponse status body => (Ret (status, body), w')
    end.

(** [await response.json()]. *)
Definition response_json (body : option json) : M json :=
  match body with
  | Some j => ret j
  | None => raise ContentTypeError
  end.

Definition _send_command (api_url : string) (payload : json) : M (Z * json) :=
  self <- get_self ;;
  let headers := JDict [("Govee-API-Key", JStr (_api_key self))] in
  response <- session_post api_url payload headers ;;
  response_json <- response_json (snd response) ;;
  (if negb (fst response =? 200)
   then log ERROR "Failed to send command: %s" [response_json]
   else ret tt) ;;
  ret (fst response, response_json).

Definition _build_capability (name : string) (value : json) : M json :=
  self <- get_self ;;
  capabilities <- lift (py_get (_device self) "capabilities" (JList [])) ;;
  items <- lift (py_iter capabilities) ;;
  capability_def <- lift (next_with_type items name) ;;
  if negb (py_truthy capability_def) then
    log ERROR "Capability '%s' not found in device capabilities" [JStr name] ;;
    ret (JDict [])
  else
    instance <- lift (py_get capability_def "instance" (JStr "powerSwitch")) ;;
    ret (JDict [("type", JStr name); ("instance", instance); ("value", value)]).

Definition async_write_ha_state : M unit :=
  self <- get_self ;;
  emit (EvWriteHaState (_state self)).

Definition control_payload (value : Z) : M json :=
  request_id <- fresh_uuid ;;
  self <- get_self ;;
  sku <- lift (py_getitem (_device self) "sku") ;;
  device <- lift (py_getitem (_device self) "device") ;;
  capability <- _build_capability "devices.capabilities.on_off" (JInt value) ;;
  ret (JDict [("requestId", request_id);
              ("payload", JDict [("sku", sku); ("device", device);
                                 ("capability", capability)])]).

Definition async_turn_on : M unit :=
  modify_self (set_state true) ;;
  let api_url := _API_BASE ++ "/device/control" in
  payload <- control_payload 1 ;;
  response <- _send_command api_url payload ;;
  self <- get_self ;;
  log DEBUG "%s: turning on" [_name self] ;;
  (if fst response =? 200 then
     modify_self (set_state true) ;;
     self <- get_self ;;
     log DEBUG "%s: turned on. Current state: %s"
         [_name self; JStr (py_str_bool (_state self))]
   else
     log ERROR "%s: turned on failed" [_name self]) ;;
  async_write_ha_state ;;
  modify_self (set_skip_next_update true).

Definition async_turn_off : M unit :=
  modify_self (set_state false) ;;
  let api_url := _API_BASE ++ "/device/control" in
  payload <- control_payload 0 ;;
  response <- _send_command api_url payload ;;
  self <- get_self ;;
  log DEBUG "%s: turning off" [_name self] ;;
  (if fst response =? 200 then
     modify_self (set_state false) ;;
     self <- get_self ;;
     log DEBUG "%s: turned off. Current State: %s"
         [_name self; JStr (py_str_bool (_state self))]
   else
     log ERROR "%s: turned off failed" [_name self]) ;;
  async_write_ha_state ;;
  modify_self (set_skip_next_update true).

Definition state_payload : M json :=
  request_id <- fresh_uuid ;;
  self <- get_self ;;
  sku <- lift (py_getitem (_device self) "sku") ;;
  device <- lift (py_getitem (_device self) "device") ;;
  ret (JDict [("requestId", request_id);
              ("payload", JDict [("sku", sku); ("device", device)])]).

(** The [status == 200] branch of [async_update]. *)
Definition read_on_off (json_payload : json) : M unit :=
  payload <- lift (py_getitem json_payload "payload") ;;
  capabilities <- lift (py_getitem payload "capabilities") ;;
  items <- lift (py_iter capabilities) ;;
  on_off_json <- lift (next_with_type items "devices.capabilities.on_off") ;;
  state <- lift (py_getitem on_off_json "state") ;;
  value <- lift (py_getitem state "value") ;;
  modify_self (set_state (py_eq_int value 1)) ;;
  self <- get_self ;;
  log DEBUG "%s: updated. Current state: %s"
      [_name self; JStr (py_str_bool (_state self))].

Definition async_update : M unit :=
  self <- get_self ;;
  if _skip_next_update self then
    log DEBUG "Skipping update for %s" [_name self] ;;
    modify_self (set_skip_next_update false)
  else
    let api_url := _API_BASE ++ "/device/state" in
    payload <- state_payload ;;
    response <- _send_command api_url payload ;;
    (if fst response =? 200 then
       read_on_off (snd response)
     else
       self <- get_self ;;
       log ERROR "%s: update failed" [_name self]) ;;
    async_write_ha_state.

Definition async_added_to_hass : M unit :=
  async_update.

End Proxy.

(* ================================================================== *)
(** ** The host framework's view

    The host invokes the entry points one after another on the same
    entity.  An exception escaping from an entry point is caught and
    logged by the host; the entity, with whatever it had already written
    to its attributes, lives on. *)

Inductive Command : Type := TurnOn | TurnOff.

Inductive Op : Type :=
| Cmd (c : Command)
| Poll.

(** The optimistic value a command assigns to [_state]. *)
Definition target (c : Command) : bool :=
  match c with TurnOn => true | TurnOff => false end.

Definition exec_command (BASE_API_URL : string) (env : Env) (c : Command) : M unit :=
  match c with
  | TurnOn => async_turn_on BASE_API_URL env
  | TurnOff => async_turn_off BASE_API_URL env
  end.

Definition exec (BASE_API_URL : string) (env : Env) (op : Op) : M unit :=
  match op with
  | Cmd c => exec_command BASE_API_URL env c
  | Poll => async_update BASE_API_URL env
  end.

Fixpoint run (BASE_API_URL : string) (env : Env) (ops : list Op) (w : World) : World :=
  match ops with
  | [] => w
  | op :: rest => run BASE_API_URL env rest (snd (exec BASE_API_URL env op w))
  end.

(** An item of a capability list that carries a [type] other than
    [name]: the generator of [next_with_type] passes over it. *)
Definition type_differs (name : string) (item : json) : bool :=
  match py_getitem item "type" with
  | Ret t => negb (py_eq_str t name)
  | Raise _ => false
  end.

(** An item whose [type] equals [name]. *)
Definition type_is (name : string) (item : json) : bool :=
  match py_getitem item "type" with
  | Ret t => py_eq_str t name
  | Raise _ => false
  end.

(** The instance name [_build_capability] puts in the payload. *)
Definition instance_of (fields : list (string * json)) : json :=
  match dict_lookup "instance" fields with
  | Some v => v
  | None => JStr "powerSwitch"
  end.

(** The world right after a skipped poll. *)
Definition skipped (w : World) : World :=
  mkWorld (set_skip_next_update false (light w))
          (trace w ++ [EvLog DEBUG "Skipping update for %s" [_name (light w)]])
          (uuids w).

(** A computation leaves the observation [proj] of the world as it
    found it, whether it returns or raises. *)
Definition keeps {X A} (proj : World -> X) (c : M A) : Prop :=
  forall w, proj (snd (c w)) = proj w.

(** Observation of an attribute of the entity. *)
Definition attr {X} (field : GoveeLight -> X) : World -> X :=
  fun w => field (light w).

(** A computation maintains the invariant [P] of the world, whether it
    returns or raises. *)
Definition preserves {A} (P : World -> Prop) (c : M A) : Prop :=
  forall w, P w -> P (snd (c w)).

(** The world after [_send_command] got an answer with a JSON body. *)
Definition answered (url : string) (payload : json) (status : Z) (body : json)
                    (w : World) : World :=
  let sent : list Event :=
    (trace w ++ [EvPost url (JDict [("Govee-API-Key", JStr (_api_key (light w)))]) payload])%list in
  mkWorld (light w)
          (if negb (status =? 200)
           then (sent ++ [EvLog ERROR "Failed to send command: %s" [body]])%list
           else sent)
          (uuids w).

(** The format of the error a failed command logs. *)
Definition failed_fmt (c : Command) : string :=
  match c with
  | TurnOn => "%s: turned on failed"
  | TurnOff => "%s: turned off failed"
  end.

(** The value a command sends for the on/off capability. *)
Definition command_value (c : Command) : Z :=
  match c with TurnOn => 1 | TurnOff => 0 end.

Definition turning_fmt (c : Command) : string :=
  match c with
  | TurnOn => "%s: turning on"
  | TurnOff => "%s: turning off"
  end.

Definition turned_fmt (c : Command) : string :=
  match c with
  | TurnOn => "%s: turned on. Current state: %s"
  | TurnOff => "%s: turned off. Current State: %s"
  end.

(** What [async_turn_on] and [async_turn_off] do once the answer to the
    control request is in. *)
Definition settle (c : Command) (response : Z * json) : M unit :=
  self <- get_self ;;
  log DEBUG (turning_fmt c) [_name self] ;;
  (if fst response =? 200 then
     modify_self (set_state (target c)) ;;
     self <- get_self ;;
     log DEBUG (turned_fmt c) [_name self; JStr (py_str_bool (_state self))]
   else
     log ERROR (failed_fmt c) [_name self]) ;;
  async_write_ha_state ;;
  modify_self (set_skip_next_update true).

(** What [async_update] does when no suppression is pending. *)
Definition fetch_state (BASE_API_URL : string) (env : Env) : M unit :=
  let api_url := _API_BASE BASE_API_URL ++ "/device/state" in
  payload <- state_payload env ;;
  response <- _send_command env api_url payload ;;
  (if fst response =? 200 then
     read_on_off (snd response)
   else
     self <- get_self ;;
     log ERROR "%s: update failed" [_name self]) ;;
  async_write_ha_state.

(** The world [settle] leaves behind; it never raises. *)
Definition settled (c : Command) (status : Z) (w : World) : World :=
  let l := if status =? 200 then set_state (target c) (light w) else light w in
  let outcome :=
    if status =? 200
    then EvLog DEBUG (turned_fmt c) [_name l; JStr (py_str_bool (_state l))]
    else EvLog ERROR (failed_fmt c) [_name l] in
  mkWorld (set_skip_next_update true l)
          (trace w ++ [EvLog DEBUG (turning_fmt c) [_name l];
                       outcome;
                       EvWriteHaState (_state l)])%list
          (uuids w).

(* ================================================================== *)
(** ** What the host reads from the entity *)

Inductive ColorMode : Type := RGB.

(** The read-only properties of [GoveeLight]. *)
Module Property.

Definition name (self : GoveeLight) : json := _name self.

Definition unique_id (self : GoveeLight) : json := _unique_id self.

Definition is_on (self : GoveeLight) : bool := _state self.

Definition supported_color_modes (self : GoveeLight) : list ColorMode := [RGB].

Definition color_mode (self : GoveeLight) : ColorMode := RGB.

Definition brightness (self : GoveeLight) : Z := _brightness self.

Definition rgb_color (self : GoveeLight) : Z * Z * Z := _rgb_color self.

End Property.

Definition is_write (ev : Event) : bool :=
  match ev with EvWriteHaState _ => true | _ => false end.

(** Number of times the entity handed its state to the host. *)
Definition ha_writes (w : World) : nat :=
  List.length (filter is_write (trace w)).

(** The URL of the control endpoint and the body of a control request. *)
Definition control_url (BASE_API_URL : string) : string :=
  _API_BASE BASE_API_URL ++ "/device/control".

Definition control_body (request_id sku device capability : json) : json :=
  JDict [("requestId", request_id);
         ("payload", JDict [("sku", sku); ("device", device);
                            ("capability", capability)])].

(** The URL of the state endpoint and the body of a state request. *)
Definition state_url (BASE_API_URL : string) : string :=
  _API_BASE BASE_API_URL ++ "/device/state".

Definition state_body (request_id sku device : json) : json :=
  JDict [("requestId", request_id);
         ("payload", JDict [("sku", sku); ("device", device)])].

Definition api_key_header (self : GoveeLight) : json :=
  JDict [("Govee-API-Key", JStr (_api_key self))].

(* ================================================================== *)
(** ** More of Python's dict and len *)

(** [d[key] = v] on the fields of a dict: an existing key keeps its
    place, a new key goes to the end. *)
Fixpoint dict_set (key : string) (v : json) (fields : list (string * json))
  : list (string * json) :=
  match fields with
  | [] => [(key, v)]
  | (k, x) :: rest =>
      if String.eqb k key then (k, v) :: rest else (k, x) :: dict_set key v rest
  end.

Fixpoint dict_remove (key : string) (fields : list (string * json))
  : list (string * json) :=
  match fields with
  | [] => []
  | (k, x) :: rest =>
      if String.eqb k key then rest else (k, x) :: dict_remove key rest
  end.

(** [obj[key] = v] with a [str] key; the object after the assignment. *)
Definition py_setitem (obj : json) (key : string) (v : json) : Outcome json :=
  match obj with
  | JDict fields => Ret (JDict (dict_set key v fields))
  | JList _ => Raise (TypeError "list indices must be integers or slices, not str")
  | JStr _ => Raise (TypeError "'str' object does not support item assignment")
  | JNull => Raise (TypeError "'NoneType' object does not support item assignment")
  | JBool _ => Raise (TypeError "'bool' object does not support item assignment")
  | JInt _ => Raise (TypeError "'int' object does not support item assignment")
  | JFloat _ => Raise (TypeError "'float' object does not support item assignment")
  end.

(** [obj.pop(key)] with a [str] key: the value removed and the object
    after the removal. *)
Definition py_pop (obj : json) (key : string) : Outcome (json * json) :=
  match obj with
  | JDict fields =>
      match dict_lookup key fields with
      | Some v => Ret (v, JDict (dict_remove key fields))
      | None => Raise (KeyError key)
      end
  | JList _ => Raise (TypeError "'str' object cannot be interpreted as an integer")
  | _ => Raise (AttributeError "pop")
  end.

(** [len(obj)]. *)
Definition py_len (obj : json) : Outcome Z :=
  match obj with
  | JList items => Ret (Z.of_nat (List.length items))
  | JDict fields => Ret (Z.of_nat (List.length fields))
  | JStr s => Ret (Z.of_nat (String.length s))
  | JNull => Raise (TypeError "object of type 'NoneType' has no len()")
  | JBool _ => Raise (TypeError "object of type 'bool' has no len()")
  | JInt _ => Raise (TypeError "object of type 'int' has no len()")
  | JFloat _ => Raise (TypeError "object of type 'float' has no len()")
  end.

(* ================================================================== *)
(** ** Config entries *)

(** A config entry of the host: its identifier and the stored
    configuration, a mapping from option names to strings. *)
Record ConfigEntry : Type := mkConfigEntry {
  entry_id : string;
  data : list (string * string)
}.

Fixpoint config_lookup (key : string) (options : list (string * string))
  : Outcome string :=
  match options with
  | [] => Raise (KeyError key)
  | (k, v) :: rest => if String.eqb k key then Ret v else config_lookup key rest
  end.

(** [entry.data] as the Python object stored in [hass.data]. *)
Definition entry_data (entry : ConfigEntry) : json :=
  JDict (map (fun kv => (fst kv, JStr (snd kv))) (data entry)).

(* ================================================================== *)
(** ** light.py: async_setup_entry *)

Module Platform.

(** Answer of the vendor API to the GET of the device list. *)
Inductive GetOutcome : Type :=
| GetFail (detail : string)
| GetResponse (status : Z) (text : string) (body : option json).

(** What the platform setup does to the outside world;
    [AddEntities] is the call of [async_add_entities]. *)
Inductive SetupEvent : Type :=
| Log (level : LogLevel) (fmt : string) (args : list json)
| Get (url : string) (headers : json)
| AddEntities (lights : list GoveeLight).

(** Events emitted so far are the state; they survive an exception. *)
Definition Setup (A : Type) : Type :=
  list SetupEvent -> Outcome A * list SetupEvent.

Definition sret {A} (a : A) : Setup A := fun tr => (Ret a, tr).

Definition sbind {A B} (c : Setup A) (k : A -> Setup B) : Setup B :=
  fun tr =>
    match c tr with
    | (Ret a, tr') => k a tr'
    | (Raise e, tr') => (Raise e, tr')
    end.

Definition slift {A} (o : Outcome A) : Setup A := fun tr => (o, tr).

Definition semit (ev : SetupEvent) : Setup unit :=
  fun tr => (Ret tt, (tr ++ [ev])%list).

Declare Scope setup_scope.
Notation "x <- c ;; k" := (sbind c (fun x => k))
  (at level 61, c at next level, right associativity) : setup_scope.
Notation "c ;; k" := (sbind c (fun _ => k))
  (at level 61, right associativity) : setup_scope.

Section Setup.

Local Open Scope setup_scope.

(** [BASE_API_URL] and [CONF_API_KEY] come from [const.py]; [py_str] is
    Python's [str] on the values of a JSON document. *)
Variable BASE_API_URL : string.
Variable CONF_API_KEY : string.
Variable py_str : json -> string.

(** [session.get(api_url, headers=headers)], answered by [answer]. *)
Definition session_get (api_url : string) (headers : json) (answer : GetOutcome)
  : Setup (Z * string * option json) :=
  fun tr =>
    let tr' := (tr ++ [Get api_url headers])%list in
    match answer with
    | GetFail detail => (Raise (ClientError detail), tr')
    | GetResponse status text body => (Ret (status, text, body), tr')
    end.

(** [[str(d["deviceName"]) for d in devices]]. *)
Fixpoint device_names (devices : list json) : Outcome (list string) :=
  match devices with
  | [] => Ret []
  | d :: rest =>
      match py_getitem d "deviceName" with
      | Raise e => Raise e
      | Ret device_name =>
          match device_names rest with
          | Raise e => Raise e
          | Ret names => Ret (py_str device_name :: names)
          end
      end
  end.

(** [[GoveeLight(device, api_key) for device in devices
      if device.get("sku") == "H600D"]]. *)
Fixpoint select_lights (devices : list json) (api_key : string)
  : Outcome (list GoveeLight) :=
  match devices with
  | [] => Ret []
  | device :: rest =>
      match py_get device "sku" JNull with
      | Raise e => Raise e
      | Ret sku =>
          if py_eq_str sku "H600D" then
            match GoveeLight_init device api_key with
            | Raise e => Raise e
            | Ret l =>
                match select_lights rest api_key with
                | Raise e => Raise e
                | Ret lights => Ret (l :: lights)
                end
            end
          else select_lights rest api_key
      end
  end.

Definition async_setup_entry (answer : GetOutcome) (config_entry : ConfigEntry)
  : Setup unit :=
  semit (Log DEBUG "Setting up Govee Lights" []) ;;
  api_key <- slift (config_lookup CONF_API_KEY (data config_entry)) ;;
  let headers := JDict [("Govee-API-Key", JStr api_key)] in
  let api_url := (_API_BASE BASE_API_URL ++ "/user/devices")%string in
  response <- session_get api_url headers answer ;;
  if negb (fst (fst response) =? 200) then
    semit (Log ERROR "Failed to fetch devices: %s" [JStr (snd (fst response))])
  else
    response_data <- slift (match snd response with
                            | Some j => Ret j
                            | None => Raise ContentTypeError
                            end) ;;
    devices <- slift (py_get response_data "data" (JDict [])) ;;
    found <- slift (py_len devices) ;;
    semit (Log INFO "Initialised Govee OpenAPI. Found devices: %s" [JInt found]) ;;
    items <- slift (py_iter devices) ;;
    names <- slift (device_names items) ;;
    semit (Log DEBUG "Devices: [%s]" [JStr (String.concat "," names)]) ;;
    items <- slift (py_iter devices) ;;
    lights <- slift (select_lights items api_key) ;;
    semit (AddEntities lights).

End Setup.

(** The lights handed to the host by a setup, in order. *)
Fixpoint added (tr : list SetupEvent) : list GoveeLight :=
  match tr with
  | [] => []
  | AddEntities lights :: rest => (lights ++ added rest)%list
  | _ :: rest => added rest
  end.

Definition is_get (ev : SetupEvent) : bool :=
  match ev with Get _ _ => true | _ => false end.

End Platform.

(* ================================================================== *)
(** ** __init__.py *)

Module Integration.

(** Calls into the host's config-entry machinery; they are taken to
    return. *)
Inductive HostCall : Type :=
| ForwardEntrySetups (entry : ConfigEntry) (platforms : list string)
| ForwardEntryUnload (entry : ConfigEntry) (platform : string).

(** The part of the host the integration touches: the dict [hass.data]
    and the calls received so far. *)
Record Hass : Type := mkHass {
  hass_data : list (string * json);
  calls : list HostCall
}.

Section Domain.

(** [DOMAIN] comes from [const.py]. *)
Variable DOMAIN : string.

(** [hass.data.setdefault(DOMAIN, {})]. *)
Definition setdefault_domain (fields : list (string * json)) : list (string * json) :=
  match dict_lookup DOMAIN fields with
  | Some _ => fields
  | None => dict_set DOMAIN (JDict []) fields
  end.

Definition async_setup_entry (hass : Hass) (entry : ConfigEntry)
  : Outcome bool * Hass :=
  let fields := setdefault_domain (hass_data hass) in
  match py_getitem (JDict fields) DOMAIN with
  | Raise e => (Raise e, mkHass fields (calls hass))
  | Ret slot =>
      match py_setitem slot (entry_id entry) (entry_data entry) with
      | Raise e => (Raise e, mkHass fields (calls hass))
      | Ret slot' =>
          (Ret true,
           mkHass (dict_set DOMAIN slot' fields)
                  (calls hass ++ [ForwardEntrySetups entry ["light"]])%list)
      end
  end.

Definition async_unload_entry (hass : Hass) (entry : ConfigEntry)
  : Outcome bool * Hass :=
  let calls' := (calls hass ++ [ForwardEntryUnload entry "light"])%list in
  match py_getitem (JDict (hass_data hass)) DOMAIN with
  | Raise e => (Raise e, mkHass (hass_data hass) calls')
  | Ret slot =>
      match py_pop slot (entry_id entry) with
      | Raise e => (Raise e, mkHass (hass_data hass) calls')
      | Ret (removed, slot') =>
          (Ret true, mkHass (dict_set DOMAIN slot' (hass_data hass)) calls')
      end
  end.

(** [hass.data[DOMAIN][entry_id]], as a later reader would look it up. *)
Definition stored (hass : Hass) (id : string) : Outcome json :=
  match py_getitem (JDict (hass_data hass)) DOMAIN with
  | Raise e => Raise e
  | Ret slot => py_getitem slot id
  end.

End Domain.

End Integration.

(** A computation only adds events to the trace. *)
Definition appends {A} (c : M A) : Prop :=
  forall w, exists more, trace (snd (c w)) = (trace w ++ more)%list.

(** A descriptor that carries the key [key]. *)
Definition has_key (key : string) (obj : json) : bool :=
  match py_getitem obj key with
  | Ret _ => true
  | Raise _ => false
  end.

(** The filter of the platform setup: [device.get("sku") == "H600D"]. *)
Definition is_h600d (device : json) : bool :=
  match py_get device "sku" JNull with
  | Ret sku => py_eq_str sku "H600D"
  | Raise _ => false
  end.


(** An entity as it leaves the constructor: off, nothing pending, default
    appearance. *)
Definition fresh (api_key : string) (l : GoveeLight) : Prop :=
  _state l = false /\ _skip_next_update l = false
  /\ _brightness l = 255 /\ _rgb_color l = (255, 255, 255)
  /\ _api_key l = api_key
  /\ py_getitem (_device l) "deviceName" = Ret (_name l)
  /\ py_getitem (_device l) "device" = Ret (_unique_id l).

(** The entries of [hass.data[DOMAIN]], none when the slot is missing. *)
Definition domain_entries (DOMAIN : string) (hass : Integration.Hass)
  : list (string * json) :=
  match dict_lookup DOMAIN (Integration.hass_data hass) with
  | Some (JDict entries) => entries
  | _ => []
  end.

(* ================================================================== *)
(** ** Sample data *)

Module Sample.

Definition on_off_capability : json :=
  JDict [("type", JStr "devices.capabilities.on_off");
         ("instance", JStr "powerSwitch")].

Definition lamp : json :=
  JDict [("sku", JStr "H600D");
         ("deviceName", JStr "Lamp");
         ("device", JStr "AA:BB");
         ("capabilities", JList [on_off_capability])].

(** A lamp whose descriptor lists only a brightness capability. *)
Definition dim_lamp : json :=
  JDict [("sku", JStr "H600D");
         ("deviceName", JStr "Lamp");
         ("device", JStr "AA:BB");
         ("capabilities",
          JList [JDict [("type", JStr "devices.capabilities.range");
                        ("instance", JStr "brightness")]])].

Definition entity (device : json) (on skip : bool) : GoveeLight :=
  mkGoveeLight device "key" on (JStr "Lamp") (JStr "AA:BB")
               255 (255, 255, 255) skip.

Definition world (device : json) (on skip : bool) : World :=
  mkWorld (entity device on skip) [] 0.

Definition base_url : string := "https://openapi.api.govee.com".

(** An API that answers every POST with the same status and body. *)
Definition api (status : Z) (body : json) : Env :=
  mkEnv (fun _ => "8d8ac610-566d-4ef0-9c22-186b2a5ed793")
        (fun _ => HttpResponse status (Some body)).

(** An API that cannot be reached. *)
Definition unreachable : Env :=
  mkEnv (fun _ => "8d8ac610-566d-4ef0-9c22-186b2a5ed793")
        (fun _ => HttpFail "Cannot connect to host").

Definition state_body (value : json) : json :=
  JDict [("payload",
          JDict [("capabilities",
                  JList [JDict [("type", JStr "devices.capabilities.on_off");
                                ("state", JDict [("value", value)])]])])].

(** A state answer that reports on/off twice, with different values. *)
Definition two_reports : json :=
  JDict [("payload",
          JDict [("capabilities",
                  JList [JDict [("type", JStr "devices.capabilities.on_off");
                                ("state", JDict [("value", JInt 1)])];
                         JDict [("type", JStr "devices.capabilities.on_off");
                                ("state", JDict [("value", JInt 0)])]])])].

(** A state answer without an on/off entry. *)
Definition no_on_off_body : json :=
  JDict [("payload",
          JDict [("capabilities",
                  JList [JDict [("type", JStr "devices.capabilities.range");
                                ("state", JDict [("value", JInt 40)])]])])].

Definition error_body : json :=
  JDict [("code", JInt 500); ("msg", JStr "Internal Error")].

(** The lamp, believed off, with a suppression pending. *)
Definition pending : World := world lamp false true.

(** The lamp, believed off, nothing pending. *)
Definition idle : World := world lamp false false.

End Sample.

(* ================================================================== *)
(** ** Sample data for the host side *)

Module SampleHost.

Definition conf_api_key : string := "api_key".

Definition domain : string := "govee_openapi".

Definition entry : ConfigEntry :=
  mkConfigEntry "0123456789abcdef" [("api_key", "key")].

(** An entry stored without an API key. *)
Definition keyless_entry : ConfigEntry := mkConfigEntry "fedcba9876543210" [].

(** [str] on the strings of the samples. *)
Definition str_of (value : json) : string :=
  match value with
  | JStr s => s
  | _ => "?"
  end.

(** A device of another model. *)
Definition plug : json :=
  JDict [("sku", JStr "H600X");
         ("deviceName", JStr "Plug");
         ("device", JStr "CC:DD")].

(** A device of another model that the API lists without a name. *)
Definition unnamed : json :=
  JDict [("sku", JStr "H5080");
         ("device", JStr "EE:FF")].

(** The lamp, listed without its model. *)
Definition lamp_without_sku : json :=
  JDict [("deviceName", JStr "Lamp");
         ("device", JStr "AA:BB");
         ("capabilities", JList [Sample.on_off_capability])].

(** The lamp, with a capability entry that has no type in front. *)
Definition lamp_with_untyped_capability : json :=
  JDict [("sku", JStr "H600D");
         ("deviceName", JStr "Lamp");
         ("device", JStr "AA:BB");
         ("capabilities",
          JList [JDict [("instance", JStr "brightness")];
                 Sample.on_off_capability])].

Definition devices_body (devices : list json) : json :=
  JDict [("code", JInt 200); ("data", JList devices)].

(** [hass.data] with another integration's slot in it. *)
Definition hass : Integration.Hass :=
  Integration.mkHass [("zone", JDict [])] [].

(** [hass.data] with the integration's slot present and empty. *)
Definition hass_with_slot : Integration.Hass :=
  Integration.mkHass [("zone", JDict []); ("govee_openapi", JDict [])] [].

End SampleHost.

(* ================================================================== *)
(** ** Sample runs *)

Module SampleRun.

(** An API that reports the lamp on. *)
Definition api : Env := Sample.api 200 (Sample.state_body (JInt 1)).

(** The fresh lamp after its first poll. *)
Definition polled : World := run Sample.base_url api [Poll] Sample.idle.

(** Then turned on, the API answering. *)
Definition turned_on : World :=
  snd (exec_command Sample.base_url api TurnOn polled).

(** The fresh lamp after a turn-on that could not reach the API. *)
Definition cut_off : World :=
  snd (exec_command Sample.base_url Sample.unreachable TurnOn Sample.idle).

End SampleRun.

(* ================================================================== *)
(** ** Running the model on the sample data *)

Example lamp_is_constructed :
  GoveeLight_init Sample.lamp "key" = Ret (Sample.entity Sample.lamp false false).
Proof. reflexivity. Qed.

Example turn_on_ok_run :
  let r := async_turn_on Sample.base_url (Sample.api 200 (JDict []))
                         (Sample.world Sample.lamp false false) in
  fst r = Ret tt /\ _state (light (snd r)) = true
  /\ _skip_next_update (light (snd r)) = true /\ posts (snd r) = 1%nat.
Proof. vm_compute. repeat split. Qed.

Example turn_on_unreachable_run :
  let r := async_turn_on Sample.base_url Sample.unreachable
                         (Sample.world Sample.lamp false false) in
  fst r = Raise (ClientError "Cannot connect to host")
  /\ _state (light (snd r)) = true
  /\ _skip_next_update (light (snd r)) = false /\ posts (snd r) = 1%nat.
Proof. vm_compute. repeat split. Qed.

Example poll_reads_off_run :
  let r := async_update Sample.base_url (Sample.api 200 (Sample.state_body (JInt 0)))
                        (Sample.world Sample.lamp true false) in
  fst r = Ret tt /\ _state (light (snd r)) = false.
Proof. vm_compute. repeat split. Qed.

(** Of two on/off reports in one answer, the first decides. *)
Example poll_two_reports_run :
  let r := async_update Sample.base_url (Sample.api 200 Sample.two_reports)
                        (Sample.world Sample.lamp false false) in
  fst r = Ret tt /\ _state (light (snd r)) = true.
Proof. vm_compute. repeat split. Qed.

(* ================================================================== *)
(** ** Frame lemmas: what a computation leaves alone *)

Section Keeps.

Context {X : Type} (proj : World -> X).

Lemma keeps_ret {A} (a : A) : keeps proj (ret a).
Proof. intros w. reflexivity. Qed.

Lemma keeps_raise {A} (e : PyExn) : keeps proj (@raise A e).
Proof. intros w. reflexivity. Qed.

Lemma keeps_lift {A} (o : Outcome A) : keeps proj (lift o).
Proof. intros w. reflexivity. Qed.

Lemma keeps_get_self : keeps proj get_self.
Proof. intros w. reflexivity. Qed.

Lemma keeps_bind {A B} (c : M A) (k : A -> M B) :
  keeps proj c -> (forall a, keeps proj (k a)) -> keeps proj (bind c k).
Proof.
  intros Hc Hk w. unfold bind.
  specialize (Hc w). destruct (c w) as [[a | e] w1]; simpl in *.
  - rewrite Hk. exact Hc.
  - exact Hc.
Qed.

Lemma keeps_response_json (body : option json) : keeps proj (response_json body).
Proof. destruct body; intros w; reflexivity. Qed.

End Keeps.

Section KeepsAttr.

Context {X : Type} (field : GoveeLight -> X).

Lemma attr_emit (ev : Event) : keeps (attr field) (emit ev).
Proof. intros w. reflexivity. Qed.

Lemma attr_log level fmt args : keeps (attr field) (log level fmt args).
Proof. intros w. reflexivity. Qed.

Lemma attr_fresh_uuid env : keeps (attr field) (fresh_uuid env).
Proof. intros w. reflexivity. Qed.

Lemma attr_session_post env url payload headers :
  keeps (attr field) (session_post env url payload headers).
Proof.
  intros w. unfold session_post. destruct (http env (posts w)); reflexivity.
Qed.

Lemma attr_modify_self (f : GoveeLight -> GoveeLight) :
  (forall l, field (f l) = field l) -> keeps (attr field) (modify_self f).
Proof. intros H w. apply H. Qed.

End KeepsAttr.

Lemma posts_snoc (l : GoveeLight) (tr : list Event) (n : nat) (ev : Event) :
  posts (mkWorld l (tr ++ [ev]) n)
  = (posts (mkWorld l tr n) + (if is_post ev then 1 else 0))%nat.
Proof.
  unfold posts. simpl. rewrite filter_app, length_app. simpl.
  destruct (is_post ev); reflexivity.
Qed.

Lemma posts_log level fmt args : keeps posts (log level fmt args).
Proof.
  intros [l tr n]. unfold log, emit. simpl. rewrite posts_snoc. simpl. lia.
Qed.

Lemma posts_write_state (b : bool) : keeps posts (emit (EvWriteHaState b)).
Proof.
  intros [l tr n]. unfold emit. simpl. rewrite posts_snoc. simpl. lia.
Qed.

Lemma posts_fresh_uuid env : keeps posts (fresh_uuid env).
Proof. intros w. reflexivity. Qed.

Lemma posts_modify_self f : keeps posts (modify_self f).
Proof. intros w. reflexivity. Qed.

Create HintDb keeps.
#[local] Hint Resolve keeps_ret keeps_raise keeps_lift keeps_get_self
  keeps_response_json attr_emit attr_log attr_fresh_uuid attr_session_post
  posts_log posts_write_state posts_fresh_uuid posts_modify_self : keeps.

(** Walks down a chain of binds and conditionals, closing each link with
    the hints. *)
Ltac keeps_chain :=
  repeat match goal with
    | |- keeps _ (bind _ _) => apply keeps_bind; [ | intros ? ]
    | |- keeps _ (if ?b then _ else _) => destruct b
    | |- keeps _ _ => solve [ auto with keeps ]
    | |- keeps (attr _) (modify_self _) =>
        apply attr_modify_self; intros []; reflexivity
    end.

Lemma send_command_keeps_attr {X} (field : GoveeLight -> X) env url payload :
  keeps (attr field) (_send_command env url payload).
Proof. unfold _send_command. keeps_chain. Qed.

Lemma build_capability_keeps_attr {X} (field : GoveeLight -> X) name value :
  keeps (attr field) (_build_capability name value).
Proof. unfold _build_capability. keeps_chain. Qed.

Lemma build_capability_keeps_posts name value :
  keeps posts (_build_capability name value).
Proof. unfold _build_capability. keeps_chain. Qed.

Lemma write_ha_state_keeps_attr {X} (field : GoveeLight -> X) :
  keeps (attr field) async_write_ha_state.
Proof. unfold async_write_ha_state. keeps_chain. Qed.

Lemma write_ha_state_keeps_posts : keeps posts async_write_ha_state.
Proof. unfold async_write_ha_state. keeps_chain. Qed.

#[local] Hint Resolve send_command_keeps_attr build_capability_keeps_attr
  build_capability_keeps_posts write_ha_state_keeps_attr
  write_ha_state_keeps_posts : keeps.

Lemma control_payload_keeps_attr {X} (field : GoveeLight -> X) env value :
  keeps (attr field) (control_payload env value).
Proof. unfold control_payload. keeps_chain. Qed.

Lemma control_payload_keeps_posts env value :
  keeps posts (control_payload env value).
Proof. unfold control_payload. keeps_chain. Qed.

Lemma state_payload_keeps_attr {X} (field : GoveeLight -> X) env :
  keeps (attr field) (state_payload env).
Proof. unfold state_payload. keeps_chain. Qed.

Lemma state_payload_keeps_posts env : keeps posts (state_payload env).
Proof. unfold state_payload. keeps_chain. Qed.

Lemma read_on_off_keeps_posts body : keeps posts (read_on_off body).
Proof. unfold read_on_off. keeps_chain. Qed.

Lemma read_on_off_keeps_skip body :
  keeps (attr _skip_next_update) (read_on_off body).
Proof. unfold read_on_off. keeps_chain. Qed.

Lemma read_on_off_keeps_device body : keeps (attr _device) (read_on_off body).
Proof. unfold read_on_off. keeps_chain. Qed.

#[local] Hint Resolve control_payload_keeps_attr control_payload_keeps_posts
  state_payload_keeps_attr state_payload_keeps_posts read_on_off_keeps_posts
  read_on_off_keeps_skip read_on_off_keeps_device : keeps.

(* ================================================================== *)
(** ** Equations of the building blocks *)

Lemma bind_ret_inv {A B} (c : M A) (k : A -> M B) w b w' :
  bind c k w = (Ret b, w') ->
  exists a w1, c w = (Ret a, w1) /\ k a w1 = (Ret b, w').
Proof.
  unfold bind. destruct (c w) as [[a | e] w1]; intros H.
  - exists a, w1. split; [reflexivity | exact H].
  - discriminate H.
Qed.

Lemma keeps_preserves {X A} (proj : World -> X) (x : X) (c : M A) :
  keeps proj c -> preserves (fun w => proj w = x) c.
Proof. intros H w Hw. rewrite H. exact Hw. Qed.

Lemma preserves_bind {A B} P (c : M A) (k : A -> M B) :
  preserves P c -> (forall a, preserves P (k a)) -> preserves P (bind c k).
Proof.
  intros Hc Hk w Hw. unfold bind.
  specialize (Hc w Hw). destruct (c w) as [[a | e] w1]; simpl in *.
  - apply Hk. exact Hc.
  - exact Hc.
Qed.

Lemma send_command_eq env url payload w :
  _send_command env url payload w =
  match http env (posts w) with
  | HttpFail detail =>
      (Raise (ClientError detail),
       mkWorld (light w)
               (trace w ++ [EvPost url (JDict [("Govee-API-Key", JStr (_api_key (light w)))]) payload])
               (uuids w))
  | HttpResponse status None =>
      (Raise ContentTypeError,
       mkWorld (light w)
               (trace w ++ [EvPost url (JDict [("Govee-API-Key", JStr (_api_key (light w)))]) payload])
               (uuids w))
  | HttpResponse status (Some body) =>
      (Ret (status, body), answered url payload status body w)
  end.
Proof.
  unfold _send_command, bind, get_self, session_post, answered. simpl.
  destruct (http env (posts w)) as [detail | status [body | ]]; simpl;
    try reflexivity.
  destruct (status =? 200); reflexivity.
Qed.

Lemma posts_answered url payload status body w :
  posts (answered url payload status body w) = S (posts w).
Proof.
  destruct w as [l tr n]. unfold answered. simpl.
  destruct (status =? 200); simpl; repeat rewrite posts_snoc; simpl; lia.
Qed.

(** Whatever the API answers, [_send_command] is one network exchange. *)
Lemma send_command_posts env url payload w :
  posts (snd (_send_command env url payload w)) = S (posts w).
Proof.
  rewrite send_command_eq.
  destruct (http env (posts w)) as [detail | status [body | ]]; simpl.
  - destruct w as [l tr n]. simpl. rewrite posts_snoc. simpl. lia.
  - apply posts_answered.
  - destruct w as [l tr n]. simpl. rewrite posts_snoc. simpl. lia.
Qed.

Lemma state_payload_eq env w sku device :
  py_getitem (_device (light w)) "sku" = Ret sku ->
  py_getitem (_device (light w)) "device" = Ret device ->
  state_payload env w =
  (Ret (JDict [("requestId", JStr (uuid4 env (uuids w)));
               ("payload", JDict [("sku", sku); ("device", device)])]),
   mkWorld (light w) (trace w) (S (uuids w))).
Proof.
  intros Hsku Hdev. unfold state_payload, bind, fresh_uuid, get_self, lift. simpl.
  rewrite Hsku, Hdev. reflexivity.
Qed.

(** The generator stops at the first item whose type matches. *)
Lemma next_with_type_first pre item post name :
  forallb (type_differs name) pre = true ->
  type_is name item = true ->
  next_with_type (pre ++ item :: post) name = Ret item.
Proof.
  intros Hpre Hitem. induction pre as [ | x pre IH]; simpl in *.
  - unfold type_is in Hitem. destruct (py_getitem item "type") as [t | e].
    + rewrite Hitem. reflexivity.
    + discriminate Hitem.
  - apply andb_true_iff in Hpre. destruct Hpre as [Hx Hpre].
    unfold type_differs in Hx. destruct (py_getitem x "type") as [t | e].
    + apply negb_true_iff in Hx. rewrite Hx. apply IH. exact Hpre.
    + discriminate Hx.
Qed.

(** With every item typed otherwise, the generator is exhausted and
    [next] hands back its default, [None]. *)
Lemma next_with_type_none items name :
  forallb (type_differs name) items = true ->
  next_with_type items name = Ret JNull.
Proof.
  intros H. induction items as [ | x items IH]; simpl in *.
  - reflexivity.
  - apply andb_true_iff in H. destruct H as [Hx H].
    unfold type_differs in Hx. destruct (py_getitem x "type") as [t | e].
    + apply negb_true_iff in Hx. rewrite Hx. apply IH. exact H.
    + discriminate Hx.
Qed.

(** With no item of the type, [next] either raises on an item without a
    usable [type] or hands back [None]. *)
Lemma next_with_type_absent items name :
  existsb (type_is name) items = false ->
  next_with_type items name = Ret JNull
  \/ exists e, next_with_type items name = Raise e.
Proof.
  intros H. induction items as [ | x items IH]; simpl in *.
  - left. reflexivity.
  - apply orb_false_iff in H. destruct H as [Hx H].
    unfold type_is in Hx. destruct (py_getitem x "type") as [t | e].
    + rewrite Hx. apply IH. exact H.
    + right. exists e. reflexivity.
Qed.

(** An item found by type is a non-empty [dict]. *)
Lemma type_is_dict name item :
  type_is name item = true ->
  exists fields, item = JDict fields /\ py_truthy item = true.
Proof.
  unfold type_is. destruct item; simpl; try discriminate.
  intros H. exists fields. split; [reflexivity | ].
  destruct fields; [discriminate H | reflexivity].
Qed.

(* ================================================================== *)
(** ** Capability resolver *)


(** C9. When every entry of the device's capability list carries a
    [type] other than the requested name (the empty list included, and a
    descriptor without a capability list too), [_build_capability] logs
    one error and returns the empty dict; it does not raise. *)
Theorem resolve_not_found :
  forall (w : World) (items : list json) (name : string) (value : json),
    py_get (_device (light w)) "capabilities" (JList []) = Ret (JList items) ->
    forallb (type_differs name) items = true ->
    _build_capability name value w
    = (Ret (JDict []),
       mkWorld (light w)
               (trace w ++ [EvLog ERROR "Capability '%s' not found in device capabilities"
                                  [JStr name]])
               (uuids w)).
Proof.
  intros w items name value Hcaps Hitems.
  unfold _build_capability, bind, get_self, lift. simpl.
  rewrite Hcaps. simpl.
  rewrite (next_with_type_none items name Hitems). reflexivity.
Qed.

(* ================================================================== *)
(** ** Polling *)

Lemma skipped_poll base env w :
  _skip_next_update (light w) = true ->
  async_update base env w = (Ret tt, skipped w).
Proof.
  intros Hskip. unfold async_update, bind, get_self. simpl.
  rewrite Hskip. reflexivity.
Qed.

Lemma posts_skipped w : posts (skipped w) = posts w.
Proof.
  unfold skipped, posts. cbn [trace].
  rewrite filter_app, length_app. cbn. lia.
Qed.

(** A poll that is not suppressed fetches the state. *)
Lemma unskipped_poll base env w :
  _skip_next_update (light w) = false ->
  async_update base env w = fetch_state base env w.
Proof.
  intros Hskip. unfold async_update at 1, bind at 1, get_self at 1. simpl.
  rewrite Hskip. reflexivity.
Qed.

Lemma fetch_state_keeps_skip base env :
  keeps (attr _skip_next_update) (fetch_state base env).
Proof. unfold fetch_state. keeps_chain. Qed.

Lemma fetch_state_keeps_device base env :
  keeps (attr _device) (fetch_state base env).
Proof. unfold fetch_state. keeps_chain. Qed.




(** The world a poll leaves behind after an answer other than 200. *)
Lemma poll_failed_eq base env w sku device status j :
  _skip_next_update (light w) = false ->
  py_getitem (_device (light w)) "sku" = Ret sku ->
  py_getitem (_device (light w)) "device" = Ret device ->
  http env (posts w) = HttpResponse status (Some j) ->
  (status =? 200) = false ->
  exists payload,
    async_update base env w
    = (Ret tt,
       mkWorld (light w)
               (trace w ++ [EvPost (_API_BASE base ++ "/device/state")
                                   (JDict [("Govee-API-Key", JStr (_api_key (light w)))])
                                   payload;
                            EvLog ERROR "Failed to send command: %s" [j];
                            EvLog ERROR "%s: update failed" [_name (light w)];
                            EvWriteHaState (_state (light w))])
               (S (uuids w))).
Proof.
  intros Hskip Hsku Hdev Hhttp Hstatus. eexists.
  rewrite (unskipped_poll base env w Hskip). unfold fetch_state, bind at 1.
  rewrite (state_payload_eq env w sku device Hsku Hdev).
  unfold bind at 1. rewrite send_command_eq.
  change (posts (mkWorld (light w) (trace w) (S (uuids w)))) with (posts w).
  rewrite Hhttp. unfold bind at 1. cbn [fst snd]. rewrite Hstatus.
  unfold answered. rewrite Hstatus.
  cbv [bind get_self log emit async_write_ha_state negb light trace uuids].
  repeat rewrite <- app_assoc. reflexivity.
Qed.

(** C7. A poll that is not suppressed and is answered with a status
    other than 200 leaves every attribute of the entity as it was; when the
    descriptor carries [sku] and [device] and the answer has a JSON body,
    the call returns after exactly one network exchange. *)
Theorem failed_poll_is_noop :
  forall (base : string) (env : Env) (w : World) (status : Z) (body : option json),
    _skip_next_update (light w) = false ->
    http env (posts w) = HttpResponse status body ->
    status <> 200 ->
    light (snd (async_update base env w)) = light w
    /\ (forall sku device j,
          py_getitem (_device (light w)) "sku" = Ret sku ->
          py_getitem (_device (light w)) "device" = Ret device ->
          body = Some j ->
          fst (async_update base env w) = Ret tt
          /\ posts (snd (async_update base env w)) = S (posts w)).
Proof.
  intros base env w status body Hskip Hhttp Hstatus.
  apply Z.eqb_neq in Hstatus.
  split.
  - rewrite (unskipped_poll base env w Hskip). unfold fetch_state, bind at 1.
    pose proof (state_payload_keeps_attr (fun l => l) env w) as Hl.
    pose proof (state_payload_keeps_posts env w) as Hp.
    destruct (state_payload env w) as [[payload | e] w1]; simpl in Hl, Hp;
      unfold attr in Hl; [ | exact Hl].
    unfold bind at 1. rewrite send_command_eq, Hp, Hhttp.
    destruct body as [j | ]; [ | exact Hl].
    unfold bind at 1. cbn [fst snd]. rewrite Hstatus. simpl. exact Hl.
  - intros sku device j Hsku Hdev ->.
    destruct (poll_failed_eq base env w sku device status j
                Hskip Hsku Hdev Hhttp Hstatus) as [payload Heq].
    rewrite Heq. split; [reflexivity | ].
    unfold posts. cbn [snd trace].
    rewrite filter_app, length_app. cbn. lia.
Qed.

(** C10. A poll that is not suppressed and is answered with HTTP 200 by
    a capability list that holds no on/off entry raises: the attributes
    stay as they were, the host is not told of any state, and the error
    escapes to the caller.  When every entry carries some other type, the
    error is the [TypeError] of subscripting [None]. *)
Theorem poll_without_on_off_raises :
  forall (base : string) (env : Env) (w : World)
         (sku device body payload caps : json) (items : list json),
    _skip_next_update (light w) = false ->
    py_getitem (_device (light w)) "sku" = Ret sku ->
    py_getitem (_device (light w)) "device" = Ret device ->
    http env (posts w) = HttpResponse 200 (Some body) ->
    py_getitem body "payload" = Ret payload ->
    py_getitem payload "capabilities" = Ret caps ->
    py_iter caps = Ret items ->
    existsb (type_is "devices.capabilities.on_off") items = false ->
    exists e,
      fst (async_update base env w) = Raise e
      /\ light (snd (async_update base env w)) = light w
      /\ (forall b, ~ In (EvWriteHaState b) (skipn (List.length (trace w))
                                                 (trace (snd (async_update base env w)))))
      /\ (forallb (type_differs "devices.capabilities.on_off") items = true ->
          e = TypeError "'NoneType' object is not subscriptable").
Proof.
  intros base env w sku device body payload caps items
         Hskip Hsku Hdev Hhttp Hpayload Hcaps Hiter Habsent.
  assert (Heq : exists e request,
             async_update base env w
             = (Raise e,
                mkWorld (light w)
                        (trace w ++ [EvPost (_API_BASE base ++ "/device/state")
                                            (JDict [("Govee-API-Key",
                                                     JStr (_api_key (light w)))])
                                            request])
                        (S (uuids w)))
             /\ (next_with_type items "devices.capabilities.on_off" = Ret JNull ->
                 e = TypeError "'NoneType' object is not subscriptable")).
  { rewrite (unskipped_poll base env w Hskip). unfold fetch_state, bind at 1.
    rewrite (state_payload_eq env w sku device Hsku Hdev).
    unfold bind at 1. rewrite send_command_eq.
    change (posts (mkWorld (light w) (trace w) (S (uuids w)))) with (posts w).
    rewrite Hhttp. unfold bind at 1. cbn [fst snd].
    change (200 =? 200) with true. cbv iota.
    unfold read_on_off, bind, lift. rewrite Hpayload, Hcaps, Hiter.
    destruct (next_with_type_absent items _ Habsent) as [Hnone | [e Hraise]].
    - rewrite Hnone. simpl. eexists. eexists. split; reflexivity.
    - rewrite Hraise. simpl. exists e. eexists. split; [reflexivity | ].
      intros Hnone. discriminate Hnone. }
  destruct Heq as [e [request [Heq Hnone]]].
  exists e. rewrite Heq. cbn [fst snd light trace]. repeat split.
  - intros b. rewrite skipn_app, skipn_all, Nat.sub_diag. simpl.
    intros [H | []]. discriminate H.
  - intros Hall. apply Hnone. apply next_with_type_none. exact Hall.
Qed.

Lemma update_clears_skip base env w :
  _skip_next_update (light (snd (async_update base env w))) = false.
Proof.
  destruct (_skip_next_update (light w)) eqn:Hskip.
  - rewrite (skipped_poll base env w Hskip). reflexivity.
  - rewrite (unskipped_poll base env w Hskip).
    pose proof (fetch_state_keeps_skip base env w) as H. unfold attr in H.
    rewrite H. exact Hskip.
Qed.

Lemma update_keeps_device base env : keeps (attr _device) (async_update base env).
Proof.
  intros w. destruct (_skip_next_update (light w)) eqn:Hskip.
  - rewrite (skipped_poll base env w Hskip). reflexivity.
  - rewrite (unskipped_poll base env w Hskip). apply fetch_state_keeps_device.
Qed.

(** With what follows it leaving the network alone, a computation
    decides the number of exchanges. *)
Lemma posts_bind {A B} (c : M A) (k : A -> M B) (w : World) (n : nat) :
  posts (snd (c w)) = n -> (forall a, keeps posts (k a)) ->
  posts (snd (bind c k w)) = n.
Proof.
  intros Hc Hk. unfold bind. destruct (c w) as [[a | e] w1]; simpl in *.
  - rewrite Hk. exact Hc.
  - exact Hc.
Qed.

(** A poll that is not suppressed is one network exchange, however the
    exchange ends. *)
Lemma unskipped_poll_posts base env w sku device :
  _skip_next_update (light w) = false ->
  py_getitem (_device (light w)) "sku" = Ret sku ->
  py_getitem (_device (light w)) "device" = Ret device ->
  posts (snd (async_update base env w)) = S (posts w).
Proof.
  intros Hskip Hsku Hdev.
  rewrite (unskipped_poll base env w Hskip). unfold fetch_state, bind at 1.
  rewrite (state_payload_eq env w sku device Hsku Hdev).
  apply posts_bind.
  - rewrite send_command_posts. reflexivity.
  - intros response. keeps_chain.
Qed.

(** C5. With a suppression pending, a poll returns at once: the flag is
    cleared, nothing goes over the network and no other attribute changes.
    After any poll the flag is down, so the poll that follows it without a
    command in between is a network exchange; two polls in a row from a
    state without pending suppression are two exchanges. *)
Theorem suppression_is_one_shot :
  forall (base : string) (env : Env) (w : World),
    (_skip_next_update (light w) = true ->
       fst (async_update base env w) = Ret tt
       /\ posts (snd (async_update base env w)) = posts w
       /\ light (snd (async_update base env w))
          = set_skip_next_update false (light w)
       /\ _state (light (snd (async_update base env w))) = _state (light w))
    /\ _skip_next_update (light (snd (async_update base env w))) = false
    /\ (forall sku device,
          py_getitem (_device (light w)) "sku" = Ret sku ->
          py_getitem (_device (light w)) "device" = Ret device ->
          let w1 := snd (async_update base env w) in
          let w2 := snd (async_update base env w1) in
          posts w2 = S (posts w1)
          /\ (_skip_next_update (light w) = false -> posts w1 = S (posts w))).
Proof.
  intros base env w. split; [ | split].
  - intros Hskip. rewrite (skipped_poll base env w Hskip).
    cbn [fst snd]. rewrite posts_skipped. repeat split.
  - apply update_clears_skip.
  - intros sku device Hsku Hdev w1 w2. split.
    + pose proof (update_keeps_device base env w) as Hd. unfold attr in Hd.
      apply (unskipped_poll_posts base env w1 sku device).
      * apply update_clears_skip.
      * unfold w1. rewrite Hd. exact Hsku.
      * unfold w1. rewrite Hd. exact Hdev.
    + intros Hskip. apply (unskipped_poll_posts base env w sku device); assumption.
Qed.

(* ================================================================== *)
(** ** Becoming active *)

(** C2, as the code has it.  [async_added_to_hass] is one invocation of
    the ordinary poll.  It is one network exchange when no suppression is
    pending, which is the case for a freshly constructed entity; a pending
    suppression is honoured: the flag is cleared and the network is not
    contacted. *)
Theorem initial_poll_honours_suppression :
  forall (base : string) (env : Env) (w : World),
    async_added_to_hass base env w = async_update base env w
    /\ (_skip_next_update (light w) = false ->
        forall sku device,
          py_getitem (_device (light w)) "sku" = Ret sku ->
          py_getitem (_device (light w)) "device" = Ret device ->
          posts (snd (async_added_to_hass base env w)) = S (posts w))
    /\ (_skip_next_update (light w) = true ->
        fst (async_added_to_hass base env w) = Ret tt
        /\ posts (snd (async_added_to_hass base env w)) = posts w
        /\ light (snd (async_added_to_hass base env w))
           = set_skip_next_update false (light w))
    /\ (forall device api_key l,
          GoveeLight_init device api_key = Ret l -> _skip_next_update l = false).
Proof.
  intros base env w. unfold async_added_to_hass.
  split; [reflexivity | split; [ | split]].
  - intros Hskip sku device Hsku Hdev.
    apply (unskipped_poll_posts base env w sku device); assumption.
  - intros Hskip. rewrite (skipped_poll base env w Hskip).
    cbn [fst snd]. rewrite posts_skipped. repeat split.
  - intros device api_key l. unfold GoveeLight_init.
    destruct (py_getitem device "deviceName"); [ | discriminate].
    destruct (py_getitem device "device"); [ | discriminate].
    intros H. injection H as <-. reflexivity.
Qed.

(** C2, as the spec has it, fails: with a suppression pending when the
    entity becomes active, the poll is skipped although the API would have
    answered. *)
Lemma initial_poll_suppressed :
  _skip_next_update (light Sample.pending) = true
  /\ async_added_to_hass Sample.base_url
       (Sample.api 200 (Sample.state_body (JInt 1))) Sample.pending
     = (Ret tt, skipped Sample.pending)
  /\ posts (skipped Sample.pending) = 0%nat
  /\ _state (light (skipped Sample.pending)) = false.
Proof. repeat split. Qed.

(* ================================================================== *)
(** ** Commands *)

Lemma exec_command_eq base env c :
  exec_command base env c
  = bind (modify_self (set_state (target c)))
      (fun _ =>
         bind (control_payload env (command_value c))
           (fun payload =>
              bind (_send_command env (_API_BASE base ++ "/device/control") payload)
                (settle c))).
Proof. destruct c; reflexivity. Qed.

Lemma settle_eq c status body w :
  settle c (status, body) w = (Ret tt, settled c status w).
Proof.
  unfold settle, settled, bind, get_self, log, emit, modify_self,
    async_write_ha_state. cbn [fst snd].
  destruct (status =? 200); cbn; repeat rewrite <- app_assoc; reflexivity.
Qed.

(** What is known of a command that returned. *)
Lemma command_ret_inv base env c w w' :
  exec_command base env c w = (Ret tt, w') ->
  exists payload status body w2,
    control_payload env (command_value c)
      (mkWorld (set_state (target c) (light w)) (trace w) (uuids w))
    = (Ret payload, w2)
    /\ http env (posts w) = HttpResponse status (Some body)
    /\ w' = settled c status
              (answered (_API_BASE base ++ "/device/control") payload status body w2).
Proof.
  rewrite exec_command_eq. intros H.
  apply bind_ret_inv in H. destruct H as [[] [w1 [H1 H]]].
  unfold modify_self in H1. injection H1 as <-.
  apply bind_ret_inv in H. destruct H as [payload [w2 [H2 H]]].
  apply bind_ret_inv in H. destruct H as [[status body] [w3 [H3 H]]].
  rewrite settle_eq in H. injection H as <-.
  rewrite send_command_eq in H3.
  pose proof (control_payload_keeps_posts env (command_value c)
                (mkWorld (set_state (target c) (light w)) (trace w) (uuids w))) as Hp.
  rewrite H2 in Hp. cbn [snd] in Hp.
  change (posts (mkWorld (set_state (target c) (light w)) (trace w) (uuids w)))
    with (posts w) in Hp.
  rewrite Hp in H3.
  destruct (http env (posts w)) as [detail | status' [body' | ]];
    try discriminate H3.
  injection H3 as <- <- <-.
  exists payload, status', body', w2. repeat split. exact H2.
Qed.

(** A command leaves [_state] at its optimistic value, however it ends. *)
Lemma command_state base env c w :
  _state (light (snd (exec_command base env c w))) = target c.
Proof.
  rewrite exec_command_eq. unfold bind at 1, modify_self at 1.
  set (w1 := mkWorld (set_state (target c) (light w)) (trace w) (uuids w)).
  assert (Hpre : preserves (fun v => attr _state v = target c)
                   (bind (control_payload env (command_value c))
                      (fun payload =>
                         bind (_send_command env (_API_BASE base ++ "/device/control")
                                 payload)
                           (settle c)))).
  { apply preserves_bind; [apply keeps_preserves; auto with keeps | intros payload].
    apply preserves_bind; [apply keeps_preserves; auto with keeps | ].
    intros [status body] v Hv. rewrite settle_eq. unfold settled, attr in *.
    cbn [snd light]. destruct (status =? 200); destruct (light v); simpl in *;
      [reflexivity | exact Hv]. }
  apply (Hpre w1). destruct (light w); reflexivity.
Qed.

Lemma command_keeps_device base env c : keeps (attr _device) (exec_command base env c).
Proof.
  rewrite exec_command_eq. unfold settle. keeps_chain.
Qed.

(** C1. A command answered with a status other than 200 leaves [_state]
    at the optimistic value it assigned before the request ([True] for
    turn-on, [False] for turn-off).  When the call returns, the last things
    it did were to log the failure and to hand the optimistic state to the
    host. *)
Theorem failed_command_keeps_optimistic_state :
  forall (base : string) (env : Env) (c : Command) (w : World)
         (status : Z) (body : option json),
    http env (posts w) = HttpResponse status body ->
    status <> 200 ->
    _state (light (snd (exec_command base env c w))) = target c
    /\ (fst (exec_command base env c w) = Ret tt ->
        exists tr,
          trace (snd (exec_command base env c w))
          = (tr ++ [EvLog ERROR (failed_fmt c) [_name (light w)];
                    EvWriteHaState (target c)])%list).
Proof.
  intros base env c w status body Hhttp Hstatus. split.
  - apply command_state.
  - intros Hret.
    destruct (exec_command base env c w) as [r w'] eqn:Hexec.
    cbn [fst snd] in *. subst r.
    destruct (command_ret_inv base env c w w' Hexec)
      as [payload [status' [body' [w2 [Hpayload [Hhttp' ->]]]]]].
    rewrite Hhttp in Hhttp'. injection Hhttp' as <- _.
    apply Z.eqb_neq in Hstatus.
    pose proof (control_payload_keeps_attr (fun l => l) env (command_value c)
                  (mkWorld (set_state (target c) (light w)) (trace w) (uuids w))) as Hl.
    rewrite Hpayload in Hl. unfold attr in Hl. cbn [snd light] in Hl.
    unfold settled, answered. rewrite Hstatus. cbn [negb light trace].
    rewrite Hl. destruct (light w); cbn.
    match goal with
    | |- exists tr, (?sent ++ [?turning; ?failed; ?written])%list = _ =>
        exists (sent ++ [turning])%list;
        exact (app_assoc sent [turning] [failed; written])
    end.
Qed.

Lemma completed_command_sets_skip base env c w w' :
  exec_command base env c w = (Ret tt, w') ->
  _skip_next_update (light w') = true.
Proof.
  intros Hexec.
  destruct (command_ret_inv base env c w w' Hexec)
    as [payload [status [body [w2 [_ [_ ->]]]]]].
  reflexivity.
Qed.

(** C4. Once a command has returned, whatever status the API answered
    with, the flag is up; the poll that comes next returns without a
    network exchange and leaves [_state] at the command's optimistic
    value. *)
Theorem completed_command_suppresses_next_poll :
  forall (base : string) (env : Env) (c : Command) (w w' : World),
    exec_command base env c w = (Ret tt, w') ->
    _skip_next_update (light w') = true
    /\ fst (async_update base env w') = Ret tt
    /\ posts (snd (async_update base env w')) = posts w'
    /\ _state (light (snd (async_update base env w'))) = target c.
Proof.
  intros base env c w w' Hexec.
  pose proof (completed_command_sets_skip base env c w w' Hexec) as Hskip.
  pose proof (command_state base env c w) as Hstate.
  rewrite Hexec in Hstate. cbn [snd] in Hstate.
  rewrite (skipped_poll base env w' Hskip). cbn [fst snd].
  rewrite posts_skipped. repeat split; trivial.
Qed.

(* ================================================================== *)
(** ** Sequences of invocations *)

Lemma run_snoc base env ops op w :
  run base env (ops ++ [op]) w = snd (exec base env op (run base env ops w)).
Proof.
  revert w. induction ops as [ | first ops IH]; intros w; simpl.
  - reflexivity.
  - apply IH.
Qed.

Lemma exec_keeps_device base env op : keeps (attr _device) (exec base env op).
Proof.
  destruct op as [c | ]; simpl.
  - apply command_keeps_device.
  - apply update_keeps_device.
Qed.

Lemma run_keeps_device base env ops w :
  _device (light (run base env ops w)) = _device (light w).
Proof.
  revert w. induction ops as [ | op ops IH]; intros w; simpl.
  - reflexivity.
  - rewrite IH. apply (exec_keeps_device base env op w).
Qed.

Lemma init_fields device api_key l :
  GoveeLight_init device api_key = Ret l ->
  _device l = device
  /\ _skip_next_update l = false
  /\ py_getitem device "device" = Ret (_unique_id l).
Proof.
  unfold GoveeLight_init.
  destruct (py_getitem device "deviceName"); [ | discriminate].
  destruct (py_getitem device "device"); [ | discriminate].
  intros H. injection H as <-. repeat split.
Qed.

(** A command that raises never reaches the assignment of the flag. *)
Lemma raised_command_keeps_skip base env c w e :
  fst (exec_command base env c w) = Raise e ->
  _skip_next_update (light (snd (exec_command base env c w)))
  = _skip_next_update (light w).
Proof.
  intros Hraise.
  remember (exec_command base env c w) as r eqn:Hr.
  rewrite exec_command_eq in Hr. unfold bind at 1, modify_self at 1 in Hr.
  set (w1 := mkWorld (set_state (target c) (light w)) (trace w) (uuids w)) in Hr.
  assert (Hs1 : _skip_next_update (light w1) = _skip_next_update (light w)).
  { unfold w1. destruct (light w); reflexivity. }
  rewrite <- Hs1. unfold bind at 1 in Hr.
  pose proof (control_payload_keeps_attr _skip_next_update env (command_value c) w1)
    as Hk.
  unfold attr in Hk.
  destruct (control_payload env (command_value c) w1) as [[payload | e1] w2];
    cbn [snd] in Hk.
  - unfold bind at 1 in Hr.
    pose proof (send_command_keeps_attr _skip_next_update env
                  (_API_BASE base ++ "/device/control") payload w2) as Hk2.
    unfold attr in Hk2.
    destruct (_send_command env (_API_BASE base ++ "/device/control") payload w2)
      as [[[status body] | e2] w3]; cbn [snd] in Hk2.
    + rewrite settle_eq in Hr. subst r. discriminate Hraise.
    + subst r. cbn [snd]. rewrite Hk2. exact Hk.
  - subst r. cbn [snd]. exact Hk.
Qed.

(** C3, as the code has it.  Along any sequence of turn-on, turn-off and
    poll invocations on a constructed entity: the flag is up only when the
    last invocation was a command, that is between a command and the next
    poll; a poll met with the flag down is a network exchange; after a
    command that returned, the next poll is skipped and the poll after
    that one is not; a command that raised leaves the flag as it found
    it, so with the flag down before it the next poll is not skipped. *)
Theorem suppression_follows_commands :
  forall (base : string) (env : Env) (device : json) (api_key : string)
         (l : GoveeLight) (sku : json) (tr : list Event) (n : nat) (ops : list Op),
    GoveeLight_init device api_key = Ret l ->
    py_getitem device "sku" = Ret sku ->
    let w := run base env ops (mkWorld l tr n) in
    (_skip_next_update (light w) = true -> exists pre c, ops = (pre ++ [Cmd c])%list)
    /\ (_skip_next_update (light w) = false ->
        posts (snd (async_update base env w)) = S (posts w))
    /\ (forall c w1,
          exec_command base env c w = (Ret tt, w1) ->
          let w2 := snd (async_update base env w1) in
          let w3 := snd (async_update base env w2) in
          _skip_next_update (light w1) = true
          /\ posts w2 = posts w1
          /\ posts w3 = S (posts w2))
    /\ (forall c e,
          fst (exec_command base env c w) = Raise e ->
          let w1 := snd (exec_command base env c w) in
          _skip_next_update (light w1) = _skip_next_update (light w)
          /\ (_skip_next_update (light w) = false ->
              posts (snd (async_update base env w1)) = S (posts w1))).
Proof.
  intros base env device api_key l sku tr n ops Hinit Hsku w.
  destruct (init_fields device api_key l Hinit) as [Hdevice [Hfresh Hdev]].
  assert (Hw : _device (light w) = device).
  { unfold w. rewrite run_keeps_device. exact Hdevice. }
  split; [ | split; [ | split]].
  - intros Hup. unfold w in Hup.
    destruct ops as [ | op ops] using rev_ind.
    + simpl in Hup. rewrite Hfresh in Hup. discriminate Hup.
    + destruct op as [c | ].
      * exists ops, c. reflexivity.
      * rewrite run_snoc in Hup. simpl in Hup.
        rewrite update_clears_skip in Hup. discriminate Hup.
  - intros Hdown.
    apply (unskipped_poll_posts base env w sku (_unique_id l)).
    + exact Hdown.
    + rewrite Hw. exact Hsku.
    + rewrite Hw. exact Hdev.
  - intros c w1 Hexec w2 w3.
    pose proof (completed_command_sets_skip base env c w w1 Hexec) as Hskip.
    pose proof (command_keeps_device base env c w) as Hd1.
    rewrite Hexec in Hd1. unfold attr in Hd1. cbn [snd] in Hd1.
    assert (Hw2 : w2 = skipped w1).
    { unfold w2. rewrite (skipped_poll base env w1 Hskip). reflexivity. }
    split; [exact Hskip | split].
    + rewrite Hw2. apply posts_skipped.
    + apply (unskipped_poll_posts base env w2 sku (_unique_id l)).
      * rewrite Hw2. reflexivity.
      * rewrite Hw2. cbn. rewrite Hd1, Hw. exact Hsku.
      * rewrite Hw2. cbn. rewrite Hd1, Hw. exact Hdev.
  - intros c e Hraise w1.
    pose proof (raised_command_keeps_skip base env c w e Hraise) as Hsame.
    pose proof (command_keeps_device base env c w) as Hd1. unfold attr in Hd1.
    split; [exact Hsame | ].
    intros Hdown.
    apply (unskipped_poll_posts base env w1 sku (_unique_id l)).
    + unfold w1. rewrite Hsame. exact Hdown.
    + unfold w1. rewrite Hd1, Hw. exact Hsku.
    + unfold w1. rewrite Hd1, Hw. exact Hdev.
Qed.

(** C3, as the spec has it, fails: with the API out of reach, a turn-on
    of the freshly constructed lamp raises before the flag is set, and the
    poll that follows it is not skipped but goes to the network; that
    command causes no poll to be skipped. *)
Lemma raised_command_skips_no_poll :
  GoveeLight_init Sample.lamp "key" = Ret (light Sample.idle)
  /\ fst (exec_command Sample.base_url Sample.unreachable TurnOn Sample.idle)
     = Raise (ClientError "Cannot connect to host")
  /\ _skip_next_update
       (light (run Sample.base_url Sample.unreachable [Cmd TurnOn] Sample.idle))
     = false
  /\ posts (run Sample.base_url Sample.unreachable [Cmd TurnOn] Sample.idle)
     = 1%nat
  /\ posts (run Sample.base_url Sample.unreachable [Cmd TurnOn; Poll] Sample.idle)
     = 2%nat
  /\ posts (run Sample.base_url Sample.unreachable [Cmd TurnOn; Poll; Poll]
              Sample.idle)
     = 3%nat.
Proof. vm_compute. repeat split. Qed.

(** Sequences seen on the sample lamp.  Two commands in a row share one
    skipped poll, and a command that raises (the API cannot be reached)
    leaves the flag down, so the next poll goes out. *)
Example back_to_back_commands_run :
  let api := Sample.api 200 (Sample.state_body (JInt 1)) in
  let w := run Sample.base_url api [Cmd TurnOn; Cmd TurnOff] Sample.idle in
  let w1 := snd (async_update Sample.base_url api w) in
  let w2 := snd (async_update Sample.base_url api w1) in
  posts w = 2%nat /\ posts w1 = 2%nat /\ posts w2 = 3%nat.
Proof. vm_compute. repeat split. Qed.

Example raised_command_run :
  let w := run Sample.base_url Sample.unreachable [Cmd TurnOn] Sample.idle in
  _skip_next_update (light w) = false
  /\ posts w = 1%nat
  /\ posts (snd (async_update Sample.base_url Sample.unreachable w)) = 2%nat.
Proof. vm_compute. repeat split. Qed.

(* ================================================================== *)
(** ** Commands return when the descriptor and the API are in order *)

Lemma next_with_type_found items name found :
  next_with_type items name = Ret found ->
  found = JNull \/ type_is name found = true.
Proof.
  induction items as [ | item items IH]; simpl.
  - intros H. injection H as <-. left. reflexivity.
  - destruct (py_getitem item "type") as [t | e] eqn:Htype; [ | discriminate].
    destruct (py_eq_str t name) eqn:Heq.
    + intros H. injection H as <-. right. unfold type_is.
      rewrite Htype. exact Heq.
    + exact IH.
Qed.

Lemma build_capability_returns name value w caps items found :
  py_get (_device (light w)) "capabilities" (JList []) = Ret caps ->
  py_iter caps = Ret items ->
  next_with_type items name = Ret found ->
  exists capability w', _build_capability name value w = (Ret capability, w').
Proof.
  intros Hcaps Hiter Hnext.
  unfold _build_capability, bind, get_self, lift. simpl.
  rewrite Hcaps, Hiter, Hnext.
  destruct (next_with_type_found items name found Hnext) as [-> | Hfound].
  - simpl. eexists. eexists. reflexivity.
  - destruct (type_is_dict name found Hfound) as [fields [-> Htruthy]].
    rewrite Htruthy. simpl.
    destruct (dict_lookup "instance" fields); eexists; eexists; reflexivity.
Qed.

(** A command returns when the descriptor carries [sku] and [device],
    the capability lookup does not trip over an entry without a type, and
    the API answers with a JSON body, whatever the status. *)
Lemma answered_command_returns base env c w sku device caps items found status body :
  py_getitem (_device (light w)) "sku" = Ret sku ->
  py_getitem (_device (light w)) "device" = Ret device ->
  py_get (_device (light w)) "capabilities" (JList []) = Ret caps ->
  py_iter caps = Ret items ->
  next_with_type items "devices.capabilities.on_off" = Ret found ->
  http env (posts w) = HttpResponse status (Some body) ->
  fst (exec_command base env c w) = Ret tt.
Proof.
  intros Hsku Hdev Hcaps Hiter Hnext Hhttp.
  rewrite exec_command_eq. unfold bind at 1, modify_self at 1.
  set (w1 := mkWorld (set_state (target c) (light w)) (trace w) (uuids w)).
  assert (Hd : _device (light w1) = _device (light w)).
  { unfold w1. destruct (light w); reflexivity. }
  assert (Hcaps1 : py_get (_device (light w1)) "capabilities" (JList []) = Ret caps).
  { rewrite Hd. exact Hcaps. }
  destruct (build_capability_returns "devices.capabilities.on_off"
              (JInt (command_value c))
              (mkWorld (light w1) (trace w1) (S (uuids w1))) caps items found
              Hcaps1 Hiter Hnext)
    as [capability [w2 Hbuild]].
  pose proof (build_capability_keeps_posts "devices.capabilities.on_off"
                (JInt (command_value c))
                (mkWorld (light w1) (trace w1) (S (uuids w1)))) as Hp.
  rewrite Hbuild in Hp. cbn [snd] in Hp.
  unfold bind at 1.
  unfold control_payload, bind at 1, fresh_uuid at 1.
  unfold bind at 1, get_self at 1. cbn [light].
  unfold bind at 1, lift at 1. rewrite Hd, Hsku.
  unfold bind at 1, lift at 1. rewrite Hdev.
  unfold bind at 1. rewrite Hbuild. unfold ret.
  unfold bind at 1. rewrite send_command_eq, Hp.
  change (posts (mkWorld (light w1) (trace w1) (S (uuids w1)))) with (posts w).
  rewrite Hhttp. rewrite settle_eq. reflexivity.
Qed.

(* ================================================================== *)
(** ** The theorems at work on the sample lamp *)


Lemma resolve_not_found_dim_lamp :
  _build_capability "devices.capabilities.on_off" (JInt 1)
    (Sample.world Sample.dim_lamp false false)
  = (Ret (JDict []),
     mkWorld (Sample.entity Sample.dim_lamp false false)
             [EvLog ERROR "Capability '%s' not found in device capabilities"
                    [JStr "devices.capabilities.on_off"]]
             0).
Proof.
  apply (resolve_not_found (Sample.world Sample.dim_lamp false false)
           [JDict [("type", JStr "devices.capabilities.range");
                   ("instance", JStr "brightness")]]
           "devices.capabilities.on_off" (JInt 1)); reflexivity.
Defined.


Lemma failed_poll_is_noop_lamp :
  light (snd (async_update Sample.base_url (Sample.api 500 Sample.error_body)
                (Sample.world Sample.lamp true false)))
  = Sample.entity Sample.lamp true false
  /\ fst (async_update Sample.base_url (Sample.api 500 Sample.error_body)
            (Sample.world Sample.lamp true false)) = Ret tt.
Proof.
  assert (Hstatus : 500 <> 200) by lia.
  destruct (failed_poll_is_noop Sample.base_url (Sample.api 500 Sample.error_body)
              (Sample.world Sample.lamp true false) 500 (Some Sample.error_body)
              eq_refl eq_refl Hstatus) as [Hlight Hret].
  split; [exact Hlight | ].
  exact (proj1 (Hret (JStr "H600D") (JStr "AA:BB") Sample.error_body
                  eq_refl eq_refl eq_refl)).
Defined.

Lemma poll_without_on_off_raises_lamp :
  fst (async_update Sample.base_url (Sample.api 200 Sample.no_on_off_body)
         (Sample.world Sample.lamp true false))
  = Raise (TypeError "'NoneType' object is not subscriptable").
Proof.
  destruct (poll_without_on_off_raises Sample.base_url
              (Sample.api 200 Sample.no_on_off_body)
              (Sample.world Sample.lamp true false)
              (JStr "H600D") (JStr "AA:BB") Sample.no_on_off_body
              (JDict [("capabilities",
                       JList [JDict [("type", JStr "devices.capabilities.range");
                                     ("state", JDict [("value", JInt 40)])]])])
              (JList [JDict [("type", JStr "devices.capabilities.range");
                             ("state", JDict [("value", JInt 40)])]])
              [JDict [("type", JStr "devices.capabilities.range");
                      ("state", JDict [("value", JInt 40)])]]
              eq_refl eq_refl eq_refl eq_refl eq_refl eq_refl eq_refl eq_refl)
    as [e [Hraise [_ [_ Hnone]]]].
  rewrite Hraise, (Hnone eq_refl). reflexivity.
Defined.

Lemma suppression_is_one_shot_lamp :
  fst (async_update Sample.base_url (Sample.api 200 (Sample.state_body (JInt 1)))
         Sample.pending) = Ret tt
  /\ posts (snd (async_update Sample.base_url
                   (Sample.api 200 (Sample.state_body (JInt 1))) Sample.pending))
     = posts Sample.pending
  /\ posts (snd (async_update Sample.base_url
                   (Sample.api 200 (Sample.state_body (JInt 1)))
                   (snd (async_update Sample.base_url
                           (Sample.api 200 (Sample.state_body (JInt 1)))
                           Sample.pending))))
     = S (posts (snd (async_update Sample.base_url
                        (Sample.api 200 (Sample.state_body (JInt 1)))
                        Sample.pending))).
Proof.
  destruct (suppression_is_one_shot Sample.base_url
              (Sample.api 200 (Sample.state_body (JInt 1))) Sample.pending)
    as [Hskip [_ Hnext]].
  destruct (Hskip eq_refl) as [Hret [Hposts _]].
  split; [exact Hret | split; [exact Hposts | ]].
  exact (proj1 (Hnext (JStr "H600D") (JStr "AA:BB") eq_refl eq_refl)).
Defined.

Lemma initial_poll_of_fresh_lamp :
  posts (snd (async_added_to_hass Sample.base_url
                (Sample.api 200 (Sample.state_body (JInt 1))) Sample.idle))
  = 1%nat.
Proof.
  destruct (initial_poll_honours_suppression Sample.base_url
              (Sample.api 200 (Sample.state_body (JInt 1))) Sample.idle)
    as [_ [Hfetch _]].
  exact (Hfetch eq_refl (JStr "H600D") (JStr "AA:BB") eq_refl eq_refl).
Defined.

Lemma failed_turn_on_lamp :
  _state (light (snd (exec_command Sample.base_url (Sample.api 500 Sample.error_body)
                        TurnOn Sample.idle))) = true.
Proof.
  assert (Hstatus : 500 <> 200) by lia.
  exact (proj1 (failed_command_keeps_optimistic_state Sample.base_url
                  (Sample.api 500 Sample.error_body) TurnOn Sample.idle
                  500 (Some Sample.error_body) eq_refl Hstatus)).
Defined.

Lemma failed_turn_on_then_poll_lamp :
  _skip_next_update
    (light (snd (exec_command Sample.base_url (Sample.api 500 Sample.error_body)
                   TurnOn Sample.idle))) = true
  /\ posts (snd (async_update Sample.base_url (Sample.api 500 Sample.error_body)
                   (snd (exec_command Sample.base_url
                           (Sample.api 500 Sample.error_body) TurnOn Sample.idle))))
     = posts (snd (exec_command Sample.base_url (Sample.api 500 Sample.error_body)
                     TurnOn Sample.idle)).
Proof.
  assert (Hexec : exec_command Sample.base_url (Sample.api 500 Sample.error_body)
                    TurnOn Sample.idle
                  = (Ret tt,
                     snd (exec_command Sample.base_url
                            (Sample.api 500 Sample.error_body) TurnOn Sample.idle)))
    by (vm_compute; reflexivity).
  destruct (completed_command_suppresses_next_poll Sample.base_url
              (Sample.api 500 Sample.error_body) TurnOn Sample.idle _ Hexec)
    as [Hskip [_ [Hposts _]]].
  split; [exact Hskip | exact Hposts].
Defined.

Lemma suppression_follows_commands_lamp :
  (_skip_next_update (light SampleRun.turned_on) = true
   /\ posts (snd (async_update Sample.base_url SampleRun.api SampleRun.turned_on))
      = posts SampleRun.turned_on
   /\ posts (snd (async_update Sample.base_url SampleRun.api
                    (snd (async_update Sample.base_url SampleRun.api
                            SampleRun.turned_on))))
      = S (posts (snd (async_update Sample.base_url SampleRun.api
                         SampleRun.turned_on))))
  /\ (_skip_next_update (light SampleRun.cut_off)
      = _skip_next_update (light Sample.idle)
      /\ posts (snd (async_update Sample.base_url Sample.unreachable
                       SampleRun.cut_off))
         = S (posts SampleRun.cut_off)).
Proof.
  split.
  - destruct (suppression_follows_commands Sample.base_url SampleRun.api
                Sample.lamp "key" (Sample.entity Sample.lamp false false)
                (JStr "H600D") [] 0%nat [Poll] eq_refl eq_refl)
      as [_ [_ [Hreturned _]]].
    assert (Hexec : exec_command Sample.base_url SampleRun.api TurnOn
                      SampleRun.polled
                    = (Ret tt, SampleRun.turned_on))
      by (vm_compute; reflexivity).
    exact (Hreturned TurnOn SampleRun.turned_on Hexec).
  - destruct (suppression_follows_commands Sample.base_url Sample.unreachable
                Sample.lamp "key" (Sample.entity Sample.lamp false false)
                (JStr "H600D") [] 0%nat [] eq_refl eq_refl)
      as [_ [_ [_ Hraised]]].
    assert (Hraise : fst (exec_command Sample.base_url Sample.unreachable TurnOn
                            Sample.idle)
                     = Raise (ClientError "Cannot connect to host"))
      by (vm_compute; reflexivity).
    destruct (Hraised TurnOn (ClientError "Cannot connect to host") Hraise)
      as [Hflag Hpoll].
    split; [exact Hflag | ].
    apply Hpoll. reflexivity.
Defined.

(* ================================================================== *)
(** ** Further properties of the entity *)

Lemma ha_writes_snoc (l : GoveeLight) (tr : list Event) (n : nat) (ev : Event) :
  ha_writes (mkWorld l (tr ++ [ev]) n)
  = (ha_writes (mkWorld l tr n) + (if is_write ev then 1 else 0))%nat.
Proof.
  unfold ha_writes. simpl. rewrite filter_app, length_app. simpl.
  destruct (is_write ev); reflexivity.
Qed.

Lemma ha_writes_log level fmt args : keeps ha_writes (log level fmt args).
Proof.
  intros [l tr n]. unfold log, emit. simpl. rewrite ha_writes_snoc. simpl. lia.
Qed.

Lemma ha_writes_fresh_uuid env : keeps ha_writes (fresh_uuid env).
Proof. intros w. reflexivity. Qed.

Lemma ha_writes_modify_self f : keeps ha_writes (modify_self f).
Proof. intros w. reflexivity. Qed.

Lemma ha_writes_session_post env url payload headers :
  keeps ha_writes (session_post env url payload headers).
Proof.
  intros [l tr n]. unfold session_post.
  destruct (http env (posts (mkWorld l tr n))); simpl;
    rewrite ha_writes_snoc; simpl; lia.
Qed.

#[local] Hint Resolve ha_writes_log ha_writes_fresh_uuid ha_writes_modify_self
  ha_writes_session_post : keeps.

Lemma send_command_keeps_ha_writes env url payload :
  keeps ha_writes (_send_command env url payload).
Proof. unfold _send_command. keeps_chain. Qed.

Lemma build_capability_keeps_ha_writes name value :
  keeps ha_writes (_build_capability name value).
Proof. unfold _build_capability. keeps_chain. Qed.

#[local] Hint Resolve send_command_keeps_ha_writes
  build_capability_keeps_ha_writes : keeps.

Lemma control_payload_keeps_ha_writes env value :
  keeps ha_writes (control_payload env value).
Proof. unfold control_payload. keeps_chain. Qed.

Lemma state_payload_keeps_ha_writes env : keeps ha_writes (state_payload env).
Proof. unfold state_payload. keeps_chain. Qed.

Lemma read_on_off_keeps_ha_writes body : keeps ha_writes (read_on_off body).
Proof. unfold read_on_off. keeps_chain. Qed.

Lemma settle_keeps_posts c response : keeps posts (settle c response).
Proof. unfold settle. keeps_chain. Qed.

(** An invocation is no exchange or one. *)
Lemma command_posts base env c w :
  posts (snd (exec_command base env c w)) = posts w
  \/ posts (snd (exec_command base env c w)) = S (posts w).
Proof.
  remember (exec_command base env c w) as r eqn:Hr.
  rewrite exec_command_eq in Hr. unfold bind at 1, modify_self at 1 in Hr.
  set (w1 := mkWorld (set_state (target c) (light w)) (trace w) (uuids w)) in Hr.
  change (posts w) with (posts w1).
  unfold bind at 1 in Hr.
  pose proof (control_payload_keeps_posts env (command_value c) w1) as Hp.
  destruct (control_payload env (command_value c) w1) as [[payload | e] w2];
    cbn [snd] in Hp; subst r.
  - right. rewrite <- Hp. apply posts_bind.
    + apply send_command_posts.
    + intros response. apply settle_keeps_posts.
  - left. exact Hp.
Qed.

Lemma update_posts base env w :
  posts (snd (async_update base env w)) = posts w
  \/ posts (snd (async_update base env w)) = S (posts w).
Proof.
  destruct (_skip_next_update (light w)) eqn:Hskip.
  - left. rewrite (skipped_poll base env w Hskip). apply posts_skipped.
  - rewrite (unskipped_poll base env w Hskip).
    remember (fetch_state base env w) as r eqn:Hr.
    unfold fetch_state, bind at 1 in Hr.
    pose proof (state_payload_keeps_posts env w) as Hp.
    destruct (state_payload env w) as [[payload | e] w1];
      cbn [snd] in Hp; subst r.
    + right. rewrite <- Hp. apply posts_bind.
      * apply send_command_posts.
      * intros response. keeps_chain.
    + left. exact Hp.
Qed.

Lemma exec_posts base env op w :
  posts (snd (exec base env op w)) = posts w
  \/ posts (snd (exec base env op w)) = S (posts w).
Proof.
  destruct op as [c | ]; simpl.
  - apply command_posts.
  - apply update_posts.
Qed.

(** X1. No invocation repeats its request: a turn-on, a turn-off or a
    poll is at most one network exchange however it ends, so a sequence of
    invocations makes at most as many exchanges as it has invocations, and
    never takes an exchange back. *)
Theorem at_most_one_exchange_per_invocation :
  forall (base : string) (env : Env) (ops : list Op) (w : World),
    (posts w <= posts (run base env ops w)
     /\ posts (run base env ops w) <= posts w + List.length ops)%nat.
Proof.
  intros base env ops. induction ops as [ | op ops IH]; intros w; simpl.
  - lia.
  - specialize (IH (snd (exec base env op w))).
    destruct (exec_posts base env op w) as [H | H]; rewrite H in IH; lia.
Qed.

(** An attribute that neither [_state] nor [_skip_next_update] is stays
    put under every invocation. *)
Lemma exec_keeps_field {X} (field : GoveeLight -> X) base env op :
  (forall b l, field (set_state b l) = field l) ->
  (forall b l, field (set_skip_next_update b l) = field l) ->
  keeps (attr field) (exec base env op).
Proof.
  intros Hstate Hskip.
  assert (Hs : forall b, keeps (attr field) (modify_self (set_state b))).
  { intros b. apply attr_modify_self. apply Hstate. }
  assert (Hk : forall b, keeps (attr field) (modify_self (set_skip_next_update b))).
  { intros b. apply attr_modify_self. apply Hskip. }
  assert (Hread : forall body, keeps (attr field) (read_on_off body)).
  { intros body. unfold read_on_off.
    repeat (apply keeps_bind; [ | intros ? ]); auto with keeps. }
  destruct op as [c | ]; simpl.
  - rewrite exec_command_eq. unfold settle.
    repeat match goal with
      | |- keeps _ (bind _ _) => apply keeps_bind; [ | intros ? ]
      | |- keeps _ (if ?b then _ else _) => destruct b
      | |- keeps _ _ => solve [ auto with keeps ]
      end.
  - intros w. destruct (_skip_next_update (light w)) eqn:Hflag.
    + rewrite (skipped_poll base env w Hflag). unfold skipped, attr.
      cbn [snd light]. apply Hskip.
    + rewrite (unskipped_poll base env w Hflag). revert w Hflag. intros w _.
      revert w. change (keeps (attr field) (fetch_state base env)).
      unfold fetch_state.
      repeat match goal with
        | |- keeps _ (bind _ _) => apply keeps_bind; [ | intros ? ]
        | |- keeps _ (if ?b then _ else _) => destruct b
        | |- keeps _ _ => solve [ auto with keeps ]
        end.
Qed.

Lemma run_keeps_field {X} (field : GoveeLight -> X) base env ops w :
  (forall b l, field (set_state b l) = field l) ->
  (forall b l, field (set_skip_next_update b l) = field l) ->
  field (light (run base env ops w)) = field (light w).
Proof.
  intros Hstate Hskip. revert w.
  induction ops as [ | op ops IH]; intros w; simpl.
  - reflexivity.
  - rewrite IH. apply (exec_keeps_field field base env op Hstate Hskip w).
Qed.

(** X2. Whatever is invoked on a constructed entity, in whatever order
    and with whatever answers from the API, the host keeps reading the
    same name and unique id (those of the descriptor), brightness 255 and
    colour white; the descriptor and the API key are never replaced. *)
Theorem identity_and_appearance_never_change :
  forall (base : string) (env : Env) (device : json) (api_key : string)
         (l : GoveeLight) (tr : list Event) (n : nat) (ops : list Op),
    GoveeLight_init device api_key = Ret l ->
    let self := light (run base env ops (mkWorld l tr n)) in
    py_getitem device "deviceName" = Ret (Property.name self)
    /\ py_getitem device "device" = Ret (Property.unique_id self)
    /\ Property.brightness self = 255
    /\ Property.rgb_color self = (255, 255, 255)
    /\ _device self = device
    /\ _api_key self = api_key.
Proof.
  intros base env device api_key l tr n ops Hinit self.
  unfold self, Property.name, Property.unique_id, Property.brightness,
    Property.rgb_color.
  rewrite (run_keeps_field _name), (run_keeps_field _unique_id),
    (run_keeps_field _brightness), (run_keeps_field _rgb_color),
    (run_keeps_field _device), (run_keeps_field _api_key);
    try (intros b []; reflexivity).
  cbn [light]. unfold GoveeLight_init in Hinit.
  destruct (py_getitem device "deviceName") as [device_name | ]; [ | discriminate].
  destruct (py_getitem device "device") as [id | ]; [ | discriminate].
  injection Hinit as <-. repeat split.
Qed.

Lemma control_payload_eq env value w sku device capability w' :
  py_getitem (_device (light w)) "sku" = Ret sku ->
  py_getitem (_device (light w)) "device" = Ret device ->
  _build_capability "devices.capabilities.on_off" (JInt value)
    (mkWorld (light w) (trace w) (S (uuids w))) = (Ret capability, w') ->
  control_payload env value w
  = (Ret (control_body (JStr (uuid4 env (uuids w))) sku device capability), w').
Proof.
  intros Hsku Hdev Hbuild.
  unfold control_payload, bind at 1, fresh_uuid at 1.
  unfold bind at 1, get_self at 1. cbn [light].
  unfold bind at 1, lift at 1. rewrite Hsku.
  unfold bind at 1, lift at 1. rewrite Hdev.
  unfold bind at 1. rewrite Hbuild. reflexivity.
Qed.

(** A command whose request could be built and was answered with a JSON
    body: where it leaves the world. *)
Lemma command_eq base env c w sku device capability w' status body :
  py_getitem (_device (light w)) "sku" = Ret sku ->
  py_getitem (_device (light w)) "device" = Ret device ->
  _build_capability "devices.capabilities.on_off" (JInt (command_value c))
    (mkWorld (set_state (target c) (light w)) (trace w) (S (uuids w)))
  = (Ret capability, w') ->
  http env (posts w) = HttpResponse status (Some body) ->
  exec_command base env c w
  = (Ret tt,
     settled c status
       (answered (control_url base)
          (control_body (JStr (uuid4 env (uuids w))) sku device capability)
          status body w')).
Proof.
  intros Hsku Hdev Hbuild Hhttp.
  rewrite exec_command_eq. unfold bind at 1, modify_self at 1.
  set (w1 := mkWorld (set_state (target c) (light w)) (trace w) (uuids w)).
  assert (Hd : _device (light w1) = _device (light w)).
  { unfold w1. destruct (light w); reflexivity. }
  unfold bind at 1.
  rewrite (control_payload_eq env (command_value c) w1 sku device capability w').
  - pose proof (build_capability_keeps_posts "devices.capabilities.on_off"
                  (JInt (command_value c))
                  (mkWorld (light w1) (trace w1) (S (uuids w1)))) as Hp.
    unfold w1 in Hp. cbn [light trace uuids] in Hp. rewrite Hbuild in Hp.
    cbn [snd] in Hp.
    unfold bind at 1. rewrite send_command_eq, Hp.
    change (posts (mkWorld (set_state (target c) (light w)) (trace w)
                           (S (uuids w)))) with (posts w).
    rewrite Hhttp. rewrite settle_eq. reflexivity.
  - rewrite Hd. exact Hsku.
  - rewrite Hd. exact Hdev.
  - exact Hbuild.
Qed.

Lemma build_capability_found w pre post fields name value :
  py_get (_device (light w)) "capabilities" (JList [])
    = Ret (JList (pre ++ JDict fields :: post)) ->
  forallb (type_differs name) pre = true ->
  type_is name (JDict fields) = true ->
  _build_capability name value w
  = (Ret (JDict [("type", JStr name);
                 ("instance", instance_of fields);
                 ("value", value)]), w).
Proof.
  intros Hcaps Hpre Hitem.
  unfold _build_capability, bind, get_self, lift. simpl.
  rewrite Hcaps. simpl.
  rewrite (next_with_type_first pre (JDict fields) post name Hpre Hitem).
  destruct (type_is_dict name (JDict fields) Hitem) as [fs [_ Htruthy]].
  rewrite Htruthy. simpl.
  unfold instance_of. destruct (dict_lookup "instance" fields); reflexivity.
Qed.

Lemma build_capability_missing w items name value :
  py_get (_device (light w)) "capabilities" (JList []) = Ret (JList items) ->
  forallb (type_differs name) items = true ->
  _build_capability name value w
  = (Ret (JDict []),
     mkWorld (light w)
             (trace w ++ [EvLog ERROR "Capability '%s' not found in device capabilities"
                                [JStr name]])
             (uuids w)).
Proof.
  intros Hcaps Hitems.
  unfold _build_capability, bind, get_self, lift. simpl.
  rewrite Hcaps. simpl.
  rewrite (next_with_type_none items name Hitems). reflexivity.
Qed.

Lemma set_state_device b l : _device (set_state b l) = _device l.
Proof. destruct l; reflexivity. Qed.

Lemma set_state_api_key b l : _api_key (set_state b l) = _api_key l.
Proof. destruct l; reflexivity. Qed.

Lemma posts_settled c status w : posts (settled c status w) = posts w.
Proof.
  unfold settled, posts. cbn [trace]. rewrite filter_app, length_app.
  destruct (status =? 200); cbn; lia.
Qed.

Lemma ha_writes_settled c status w :
  ha_writes (settled c status w) = S (ha_writes w).
Proof.
  unfold settled, ha_writes. cbn [trace]. rewrite filter_app, length_app.
  destruct (status =? 200); cbn; lia.
Qed.

Lemma ha_writes_answered url payload status body w :
  ha_writes (answered url payload status body w) = ha_writes w.
Proof.
  unfold answered, ha_writes. cbn [trace].
  destruct (status =? 200); cbn [negb];
    repeat rewrite filter_app, length_app; cbn; lia.
Qed.

(** X4. A descriptor without an on/off capability does not stop a
    command: the resolver logs its error, and the request goes out all the
    same with an empty [capability]; the call then proceeds as any other
    (optimistic state, flag up). *)
Theorem command_without_capability_is_sent :
  forall (base : string) (env : Env) (c : Command) (w : World)
         (sku device : json) (items : list json) (status : Z) (body : json),
    py_getitem (_device (light w)) "sku" = Ret sku ->
    py_getitem (_device (light w)) "device" = Ret device ->
    py_get (_device (light w)) "capabilities" (JList []) = Ret (JList items) ->
    forallb (type_differs "devices.capabilities.on_off") items = true ->
    http env (posts w) = HttpResponse status (Some body) ->
    fst (exec_command base env c w) = Ret tt
    /\ _state (light (snd (exec_command base env c w))) = target c
    /\ _skip_next_update (light (snd (exec_command base env c w))) = true
    /\ exists rest,
         trace (snd (exec_command base env c w))
         = (trace w
            ++ EvLog ERROR "Capability '%s' not found in device capabilities"
                 [JStr "devices.capabilities.on_off"]
            :: EvPost (control_url base) (api_key_header (light w))
                 (control_body (JStr (uuid4 env (uuids w))) sku device (JDict []))
            :: rest)%list.
Proof.
  intros base env c w sku device items status body Hsku Hdev Hcaps Hitems Hhttp.
  set (w1 := mkWorld (set_state (target c) (light w)) (trace w) (S (uuids w))).
  assert (Hbuild : _build_capability "devices.capabilities.on_off"
                     (JInt (command_value c)) w1
                   = (Ret (JDict []),
                      mkWorld (light w1)
                        (trace w1 ++ [EvLog ERROR
                                        "Capability '%s' not found in device capabilities"
                                        [JStr "devices.capabilities.on_off"]])
                        (uuids w1))).
  { apply (build_capability_missing w1 items); assumption. }
  pose proof (command_state base env c w) as Hstate.
  rewrite (command_eq base env c w sku device _ _ status body Hsku Hdev Hbuild Hhttp)
    in *.
  cbn [fst snd] in *. split; [reflexivity | split; [exact Hstate | split]].
  - reflexivity.
  - unfold settled, answered, api_key_header, w1. cbn [trace light].
    rewrite set_state_api_key.
    destruct (status =? 200); cbn [negb];
      repeat rewrite <- app_assoc; eexists; reflexivity.
Qed.

(** X5. A command that raises, for whatever reason (a key missing from
    the descriptor, the API out of reach, an answer that is not JSON),
    has already assigned the optimistic state, has not told the host, and
    leaves the suppression flag as it found it. *)
Theorem raised_command_effects :
  forall (base : string) (env : Env) (c : Command) (w : World) (e : PyExn),
    fst (exec_command base env c w) = Raise e ->
    _state (light (snd (exec_command base env c w))) = target c
    /\ _skip_next_update (light (snd (exec_command base env c w)))
       = _skip_next_update (light w)
    /\ ha_writes (snd (exec_command base env c w)) = ha_writes w.
Proof.
  intros base env c w e Hraise.
  split; [apply command_state | ].
  remember (exec_command base env c w) as r eqn:Hr.
  rewrite exec_command_eq in Hr. unfold bind at 1, modify_self at 1 in Hr.
  set (w1 := mkWorld (set_state (target c) (light w)) (trace w) (uuids w)) in Hr.
  assert (Hs1 : _skip_next_update (light w1) = _skip_next_update (light w)).
  { unfold w1. destruct (light w); reflexivity. }
  change (ha_writes w) with (ha_writes w1). rewrite <- Hs1.
  unfold bind at 1 in Hr.
  pose proof (control_payload_keeps_attr _skip_next_update env (command_value c) w1)
    as Hk.
  pose proof (control_payload_keeps_ha_writes env (command_value c) w1) as Hh.
  unfold attr in Hk.
  destruct (control_payload env (command_value c) w1) as [[payload | e1] w2];
    cbn [snd] in Hk, Hh.
  - unfold bind at 1 in Hr.
    pose proof (send_command_keeps_attr _skip_next_update env
                  (_API_BASE base ++ "/device/control") payload w2) as Hk2.
    pose proof (send_command_keeps_ha_writes env
                  (_API_BASE base ++ "/device/control") payload w2) as Hh2.
    unfold attr in Hk2.
    destruct (_send_command env (_API_BASE base ++ "/device/control") payload w2)
      as [[[status body] | e2] w3]; cbn [snd] in Hk2, Hh2.
    + rewrite settle_eq in Hr. subst r. discriminate Hraise.
    + subst r. cbn [snd]. rewrite Hk2, Hh2. split; assumption.
  - subst r. cbn [snd]. split; assumption.
Qed.

(** X6. A command that returns, whatever status the API answered with,
    tells the host exactly once, as the last thing it does to the outside
    world, and what it tells is the optimistic value. *)
Theorem returned_command_tells_host :
  forall (base : string) (env : Env) (c : Command) (w w' : World),
    exec_command base env c w = (Ret tt, w') ->
    ha_writes w' = S (ha_writes w)
    /\ Property.is_on (light w') = target c
    /\ exists tr, trace w' = (tr ++ [EvWriteHaState (target c)])%list.
Proof.
  intros base env c w w' Hexec.
  pose proof (command_state base env c w) as Hstate.
  rewrite Hexec in Hstate. cbn [snd] in Hstate.
  destruct (command_ret_inv base env c w w' Hexec)
    as [payload [status [body [w2 [Hpayload [_ ->]]]]]].
  pose proof (control_payload_keeps_ha_writes env (command_value c)
                (mkWorld (set_state (target c) (light w)) (trace w) (uuids w))) as Hh.
  pose proof (control_payload_keeps_attr _state env (command_value c)
                (mkWorld (set_state (target c) (light w)) (trace w) (uuids w))) as Hs.
  rewrite Hpayload in Hh, Hs. unfold attr in Hs. cbn [snd light] in Hh, Hs.
  split; [ | split; [exact Hstate | ]].
  - rewrite ha_writes_settled, ha_writes_answered, Hh. reflexivity.
  - assert (Hl : _state (light w2) = target c).
    { rewrite Hs. destruct (light w); reflexivity. }
    unfold settled. cbn [trace].
    match goal with
    | |- exists tr, (?sent ++ [?turning; ?outcome; _])%list = _ =>
        exists (sent ++ [turning; outcome])%list
    end.
    rewrite <- app_assoc. cbn [app]. do 4 f_equal.
    unfold answered. cbn [light].
    destruct (status =? 200);
      [destruct (light w2); reflexivity | rewrite Hl; reflexivity].
Qed.

(** The on/off answer is read to the end before anything is assigned: it
    either raises with the world untouched, or assigns and logs. *)
Lemma read_on_off_cases body w :
  (exists e, read_on_off body w = (Raise e, w))
  \/ (exists value,
        read_on_off body w
        = (Ret tt,
           mkWorld (set_state (py_eq_int value 1) (light w))
                   (trace w ++ [EvLog DEBUG "%s: updated. Current state: %s"
                                      [_name (light w);
                                       JStr (py_str_bool (py_eq_int value 1))]])
                   (uuids w))).
Proof.
  unfold read_on_off, bind, lift, get_self, modify_self, log, emit.
  destruct (py_getitem body "payload") as [payload | e]; [ | left; eauto].
  destruct (py_getitem payload "capabilities") as [caps | e]; [ | left; eauto].
  destruct (py_iter caps) as [items | e]; [ | left; eauto].
  destruct (next_with_type items "devices.capabilities.on_off") as [found | e];
    [ | left; eauto].
  destruct (py_getitem found "state") as [state | e]; [ | left; eauto].
  destruct (py_getitem state "value") as [value | e]; [ | left; eauto].
  right. exists value. destruct w as [[] tr n]. reflexivity.
Qed.

(** X7. A poll that raises (a key missing from the descriptor, the API
    out of reach, an answer of an unexpected shape) leaves every attribute
    of the entity as it was and does not tell the host anything. *)
Theorem raised_poll_changes_nothing :
  forall (base : string) (env : Env) (w : World) (e : PyExn),
    fst (async_update base env w) = Raise e ->
    light (snd (async_update base env w)) = light w
    /\ ha_writes (snd (async_update base env w)) = ha_writes w.
Proof.
  intros base env w e Hraise.
  destruct (_skip_next_update (light w)) eqn:Hskip.
  { rewrite (skipped_poll base env w Hskip) in Hraise. discriminate Hraise. }
  rewrite (unskipped_poll base env w Hskip) in *.
  remember (fetch_state base env w) as r eqn:Hr.
  unfold fetch_state, bind at 1 in Hr.
  pose proof (state_payload_keeps_attr (fun l => l) env w) as Hl.
  pose proof (state_payload_keeps_ha_writes env w) as Hh.
  unfold attr in Hl.
  destruct (state_payload env w) as [[payload | e1] w1]; cbn [snd] in Hl, Hh.
  - unfold bind at 1 in Hr.
    pose proof (send_command_keeps_attr (fun l => l) env
                  (_API_BASE base ++ "/device/state") payload w1) as Hl2.
    pose proof (send_command_keeps_ha_writes env
                  (_API_BASE base ++ "/device/state") payload w1) as Hh2.
    unfold attr in Hl2.
    destruct (_send_command env (_API_BASE base ++ "/device/state") payload w1)
      as [[[status body] | e2] w2]; cbn [snd] in Hl2, Hh2.
    + unfold bind at 1 in Hr. cbn [fst snd] in Hr.
      destruct (status =? 200).
      * destruct (read_on_off_cases body w2) as [[e3 Hread] | [value Hread]];
          rewrite Hread in Hr; subst r.
        -- cbn [snd]. rewrite Hl2, Hh2. split; assumption.
        -- discriminate Hraise.
      * subst r. discriminate Hraise.
    + subst r. cbn [snd]. rewrite Hl2, Hh2. split; assumption.
  - subst r. cbn [snd]. split; assumption.
Qed.

(** X8. A suppressed poll does not tell the host anything.  A poll that
    is not suppressed and returns tells the host exactly once, as the last
    thing it does, and what it tells is the state it ends with. *)
Theorem poll_tells_host :
  forall (base : string) (env : Env) (w : World),
    (_skip_next_update (light w) = true ->
       ha_writes (snd (async_update base env w)) = ha_writes w)
    /\ (_skip_next_update (light w) = false ->
        fst (async_update base env w) = Ret tt ->
        ha_writes (snd (async_update base env w)) = S (ha_writes w)
        /\ exists tr,
             trace (snd (async_update base env w))
             = (tr ++ [EvWriteHaState
                         (Property.is_on (light (snd (async_update base env w))))])%list).
Proof.
  intros base env w. split.
  - intros Hskip. rewrite (skipped_poll base env w Hskip).
    unfold skipped, ha_writes. cbn [snd trace].
    rewrite filter_app, length_app. cbn. lia.
  - intros Hskip Hret. rewrite (unskipped_poll base env w Hskip) in *.
    destruct (fetch_state base env w) as [r w'] eqn:Hfetch.
    cbn [fst snd] in *. subst r.
    unfold fetch_state in Hfetch.
    apply bind_ret_inv in Hfetch. destruct Hfetch as [payload [w1 [H1 H]]].
    apply bind_ret_inv in H. destruct H as [response [w2 [H2 H]]].
    apply bind_ret_inv in H. destruct H as [[] [w3 [H3 H]]].
    pose proof (state_payload_keeps_ha_writes env w) as Hh1.
    rewrite H1 in Hh1. cbn [snd] in Hh1.
    pose proof (send_command_keeps_ha_writes env
                  (_API_BASE base ++ "/device/state") payload w1) as Hh2.
    rewrite H2 in Hh2. cbn [snd] in Hh2.
    assert (Hh3 : ha_writes w3 = ha_writes w2).
    { destruct (fst response =? 200).
      - pose proof (read_on_off_keeps_ha_writes (snd response) w2) as Hk.
        rewrite H3 in Hk. exact Hk.
      - unfold bind, get_self, log, emit in H3. injection H3 as <-.
        unfold ha_writes. cbn [trace]. rewrite filter_app, length_app. cbn. lia. }
    unfold async_write_ha_state, bind, get_self, emit in H. injection H as <-.
    split.
    + unfold ha_writes at 1. cbn [trace]. rewrite filter_app, length_app. cbn.
      fold (ha_writes w3). lia.
    + exists (trace w3). reflexivity.
Qed.

Lemma appends_ret {A} (a : A) : appends (ret a).
Proof. intros w. exists []. cbn. rewrite app_nil_r. reflexivity. Qed.

Lemma appends_lift {A} (o : Outcome A) : appends (lift o).
Proof. intros w. exists []. cbn. rewrite app_nil_r. reflexivity. Qed.

Lemma appends_get_self : appends get_self.
Proof. intros w. exists []. cbn. rewrite app_nil_r. reflexivity. Qed.

Lemma appends_modify_self f : appends (modify_self f).
Proof. intros w. exists []. cbn. rewrite app_nil_r. reflexivity. Qed.

Lemma appends_emit ev : appends (emit ev).
Proof. intros w. exists [ev]. reflexivity. Qed.

Lemma appends_log level fmt args : appends (log level fmt args).
Proof. apply appends_emit. Qed.

Lemma appends_bind {A B} (c : M A) (k : A -> M B) :
  appends c -> (forall a, appends (k a)) -> appends (bind c k).
Proof.
  intros Hc Hk w. unfold bind.
  destruct (Hc w) as [more Hmore].
  destruct (c w) as [[a | e] w1]; cbn [snd] in *.
  - destruct (Hk a w1) as [more' Hmore']. exists (more ++ more')%list.
    rewrite Hmore', Hmore, app_assoc. reflexivity.
  - exists more. exact Hmore.
Qed.

Create HintDb appends.
#[local] Hint Resolve appends_ret appends_lift appends_get_self
  appends_modify_self appends_emit appends_log : appends.

Ltac appends_chain :=
  repeat match goal with
    | |- appends (bind _ _) => apply appends_bind; [ | intros ? ]
    | |- appends (if ?b then _ else _) => destruct b
    | |- appends _ => solve [ auto with appends ]
    end.

Lemma read_on_off_appends body : appends (read_on_off body).
Proof. unfold read_on_off. appends_chain. Qed.

Lemma write_ha_state_appends : appends async_write_ha_state.
Proof. unfold async_write_ha_state. appends_chain. Qed.

(** What follows a computation cannot undo the events it emitted. *)
Lemma bind_keeps_prefix {A B} (c : M A) (k : A -> M B) w pre :
  (exists more, trace (snd (c w)) = (pre ++ more)%list) ->
  (forall a, appends (k a)) ->
  exists more, trace (snd (bind c k w)) = (pre ++ more)%list.
Proof.
  intros [more Hmore] Hk. unfold bind.
  destruct (c w) as [[a | e] w1]; cbn [snd] in *.
  - destruct (Hk a w1) as [more' Hmore']. exists (more ++ more')%list.
    rewrite Hmore', Hmore, app_assoc. reflexivity.
  - exists more. exact Hmore.
Qed.

(** X9. What a poll puts on the wire.  With a descriptor that carries
    [sku] and [device], a poll that is not suppressed first of all sends
    one POST to the state endpoint, with the API key as header and the body
    [{requestId, payload: {sku, device}}]; this holds however the exchange
    ends. *)
Theorem poll_request :
  forall (base : string) (env : Env) (w : World) (sku device : json),
    _skip_next_update (light w) = false ->
    py_getitem (_device (light w)) "sku" = Ret sku ->
    py_getitem (_device (light w)) "device" = Ret device ->
    exists rest,
      trace (snd (async_update base env w))
      = (trace w
         ++ EvPost (state_url base) (api_key_header (light w))
              (state_body (JStr (uuid4 env (uuids w))) sku device)
         :: rest)%list.
Proof.
  intros base env w sku device Hskip Hsku Hdev.
  rewrite (unskipped_poll base env w Hskip). unfold fetch_state, bind at 1.
  rewrite (state_payload_eq env w sku device Hsku Hdev).
  destruct (bind_keeps_prefix
              (_send_command env (_API_BASE base ++ "/device/state")
                 (state_body (JStr (uuid4 env (uuids w))) sku device))
              (fun response =>
                 bind (if fst response =? 200
                       then read_on_off (snd response)
                       else bind get_self
                              (fun self => log ERROR "%s: update failed" [_name self]))
                   (fun _ => async_write_ha_state))
              (mkWorld (light w) (trace w) (S (uuids w)))
              (trace w ++ [EvPost (state_url base) (api_key_header (light w))
                             (state_body (JStr (uuid4 env (uuids w))) sku device)]))
    as [rest Hrest].
  - rewrite send_command_eq.
    destruct (http env (posts (mkWorld (light w) (trace w) (S (uuids w)))))
      as [detail | status [body | ]]; cbn [snd trace light].
    + exists []. rewrite app_nil_r. reflexivity.
    + unfold answered. cbn [trace light].
      destruct (status =? 200); cbn [negb].
      * exists []. rewrite app_nil_r. reflexivity.
      * eexists. reflexivity.
    + exists []. rewrite app_nil_r. reflexivity.
  - intros response.
    apply appends_bind; [ | intros ?; apply write_ha_state_appends].
    destruct (fst response =? 200); [apply read_on_off_appends | appends_chain].
  - exists rest. unfold state_body in *. rewrite Hrest, <- app_assoc. reflexivity.
Qed.

Lemma settle_appends c response : appends (settle c response).
Proof. unfold settle, async_write_ha_state. appends_chain. Qed.

(** X3. What a command puts on the wire.  With a descriptor that carries
    [sku], [device] and an on/off capability, a turn-on (turn-off) is
    exactly one POST to the control endpoint, sent before anything is
    logged, with the API key as header and the body
    [{requestId, payload: {sku, device, capability: {type, instance,
    value}}}], value 1 (0) and the instance of the descriptor's first
    on/off entry; this holds however the exchange ends.  When the API
    answers with a JSON body the call returns, whatever the status. *)
Theorem command_request :
  forall (base : string) (env : Env) (c : Command) (w : World)
         (sku device : json) (pre post : list json)
         (fields : list (string * json)),
    py_getitem (_device (light w)) "sku" = Ret sku ->
    py_getitem (_device (light w)) "device" = Ret device ->
    py_get (_device (light w)) "capabilities" (JList [])
      = Ret (JList (pre ++ JDict fields :: post)) ->
    forallb (type_differs "devices.capabilities.on_off") pre = true ->
    type_is "devices.capabilities.on_off" (JDict fields) = true ->
    posts (snd (exec_command base env c w)) = S (posts w)
    /\ (exists rest,
          trace (snd (exec_command base env c w))
          = (trace w
             ++ EvPost (control_url base) (api_key_header (light w))
                  (control_body (JStr (uuid4 env (uuids w))) sku device
                     (JDict [("type", JStr "devices.capabilities.on_off");
                             ("instance", instance_of fields);
                             ("value", JInt (command_value c))]))
             :: rest)%list)
    /\ (forall status body,
          http env (posts w) = HttpResponse status (Some body) ->
          fst (exec_command base env c w) = Ret tt).
Proof.
  intros base env c w sku device pre post fields Hsku Hdev Hcaps Hpre Hitem.
  set (capability := JDict [("type", JStr "devices.capabilities.on_off");
                            ("instance", instance_of fields);
                            ("value", JInt (command_value c))]).
  set (request := control_body (JStr (uuid4 env (uuids w))) sku device capability).
  set (w1 := mkWorld (set_state (target c) (light w)) (trace w) (S (uuids w))).
  assert (Hbuild : _build_capability "devices.capabilities.on_off"
                     (JInt (command_value c)) w1 = (Ret capability, w1)).
  { apply (build_capability_found w1 pre post fields); assumption. }
  assert (Hshape : exec_command base env c w
                   = bind (_send_command env (control_url base) request)
                       (settle c) w1).
  { rewrite exec_command_eq. unfold bind at 1, modify_self at 1.
    unfold bind at 1.
    rewrite (control_payload_eq env (command_value c)
               (mkWorld (set_state (target c) (light w)) (trace w) (uuids w))
               sku device capability w1).
    - reflexivity.
    - cbn [light]. rewrite set_state_device. exact Hsku.
    - cbn [light]. rewrite set_state_device. exact Hdev.
    - exact Hbuild. }
  split; [ | split].
  - rewrite Hshape. apply posts_bind.
    + rewrite send_command_posts. reflexivity.
    + intros response. apply settle_keeps_posts.
  - rewrite Hshape.
    destruct (bind_keeps_prefix
                (_send_command env (control_url base) request) (settle c) w1
                (trace w ++ [EvPost (control_url base) (api_key_header (light w))
                               request]))
      as [rest Hrest].
    + rewrite send_command_eq. unfold api_key_header.
      destruct (http env (posts w1)) as [detail | status [body | ]];
        cbn [snd trace light w1]; try rewrite set_state_api_key.
      * exists []. rewrite app_nil_r. reflexivity.
      * unfold answered. cbn [trace light]. try rewrite set_state_api_key.
        destruct (status =? 200); cbn [negb].
        -- exists []. rewrite app_nil_r. reflexivity.
        -- eexists. reflexivity.
      * exists []. rewrite app_nil_r. reflexivity.
    + intros response. apply settle_appends.
    + exists rest. rewrite Hrest, <- app_assoc. reflexivity.
  - intros status body Hhttp.
    rewrite (command_eq base env c w sku device capability w1 status body
               Hsku Hdev Hbuild Hhttp).
    reflexivity.
Qed.

Lemma next_with_type_raise pre bad post name e :
  forallb (type_differs name) pre = true ->
  py_getitem bad "type" = Raise e ->
  next_with_type (pre ++ bad :: post) name = Raise e.
Proof.
  intros Hpre Hbad. induction pre as [ | x pre IH]; simpl in *.
  - rewrite Hbad. reflexivity.
  - apply andb_true_iff in Hpre. destruct Hpre as [Hx Hpre].
    unfold type_differs in Hx. destruct (py_getitem x "type") as [t | e'].
    + apply negb_true_iff in Hx. rewrite Hx. apply IH. exact Hpre.
    + discriminate Hx.
Qed.

(** X10. The resolver trips over a malformed capability list: an entry
    that has no usable [type] and stands in front of every entry of the
    requested type makes it raise the lookup error of that entry, even
    when a matching entry follows; a capability list that cannot be
    iterated (a [null], a number) makes it raise too.  In both cases
    nothing is logged. *)
Theorem resolver_raises_on_malformed_list :
  forall (w : World) (name : string) (value : json),
    (forall pre bad post e,
        py_get (_device (light w)) "capabilities" (JList [])
          = Ret (JList (pre ++ bad :: post)) ->
        forallb (type_differs name) pre = true ->
        py_getitem bad "type" = Raise e ->
        _build_capability name value w = (Raise e, w))
    /\ (forall caps e,
          py_get (_device (light w)) "capabilities" (JList []) = Ret caps ->
          py_iter caps = Raise e ->
          _build_capability name value w = (Raise e, w)).
Proof.
  intros w name value. split.
  - intros pre bad post e Hcaps Hpre Hbad.
    unfold _build_capability, bind, get_self, lift. simpl.
    rewrite Hcaps. simpl.
    rewrite (next_with_type_raise pre bad post name e Hpre Hbad). reflexivity.
  - intros caps e Hcaps Hiter.
    unfold _build_capability, bind, get_self, lift. simpl.
    rewrite Hcaps, Hiter. reflexivity.
Qed.

(** X11. Construction succeeds exactly on a dict descriptor that has
    both [deviceName] and [device]; the entity then starts off, with no
    suppression pending, at brightness 255 and colour white, named and
    identified by those two fields.  A descriptor without [deviceName] is
    refused with that key's error, also when [device] is missing too. *)
Theorem construction_spec :
  forall (device : json) (api_key : string),
    (forall l,
        GoveeLight_init device api_key = Ret l <->
        exists fields device_name id,
          device = JDict fields
          /\ dict_lookup "deviceName" fields = Some device_name
          /\ dict_lookup "device" fields = Some id
          /\ l = mkGoveeLight device api_key false device_name id
                              255 (255, 255, 255) false)
    /\ (forall fields,
          device = JDict fields ->
          dict_lookup "deviceName" fields = None ->
          GoveeLight_init device api_key = Raise (KeyError "deviceName"))
    /\ (forall fields device_name,
          device = JDict fields ->
          dict_lookup "deviceName" fields = Some device_name ->
          dict_lookup "device" fields = None ->
          GoveeLight_init device api_key = Raise (KeyError "device")).
Proof.
  intros device api_key. split; [ | split].
  - intros l. split.
    + unfold GoveeLight_init, py_getitem.
      destruct device as [ | | | | | | fields]; try discriminate.
      destruct (dict_lookup "deviceName" fields) as [device_name | ] eqn:Hname;
        [ | discriminate].
      destruct (dict_lookup "device" fields) as [id | ] eqn:Hid; [ | discriminate].
      intros H. injection H as <-. exists fields, device_name, id.
      repeat split; assumption.
    + intros [fields [device_name [id [-> [Hname [Hid ->]]]]]].
      unfold GoveeLight_init, py_getitem. rewrite Hname, Hid. reflexivity.
  - intros fields -> Hname. unfold GoveeLight_init, py_getitem.
    rewrite Hname. reflexivity.
  - intros fields device_name -> Hname Hid. unfold GoveeLight_init, py_getitem.
    rewrite Hname, Hid. reflexivity.
Qed.

(** X12. A descriptor from which [sku] cannot be read stops every
    request before the network: a poll that is not suppressed and a
    command both raise the lookup error with nothing sent and nothing
    logged.  The command has by then switched [_state] to its optimistic
    value, which the host is not told. *)
Theorem unreadable_sku_stops_before_network :
  forall (base : string) (env : Env) (w : World) (e : PyExn),
    py_getitem (_device (light w)) "sku" = Raise e ->
    (_skip_next_update (light w) = false ->
       async_update base env w
       = (Raise e, mkWorld (light w) (trace w) (S (uuids w))))
    /\ (forall c,
          exec_command base env c w
          = (Raise e,
             mkWorld (set_state (target c) (light w)) (trace w) (S (uuids w)))).
Proof.
  intros base env w e Hsku. split.
  - intros Hskip. rewrite (unskipped_poll base env w Hskip).
    unfold fetch_state, bind at 1.
    unfold state_payload, bind, fresh_uuid, get_self, lift. cbn [light].
    rewrite Hsku. reflexivity.
  - intros c. rewrite exec_command_eq.
    unfold bind at 1, modify_self at 1. unfold bind at 1.
    unfold control_payload, bind, fresh_uuid, get_self, lift. cbn [light].
    rewrite set_state_device, Hsku. reflexivity.
Qed.

(* ================================================================== *)
(** ** Platform setup *)

Lemma added_app tr tr' :
  Platform.added (tr ++ tr') = (Platform.added tr ++ Platform.added tr')%list.
Proof.
  induction tr as [ | ev tr IH]; simpl.
  - reflexivity.
  - destruct ev; simpl; rewrite IH; try reflexivity.
    rewrite app_assoc. reflexivity.
Qed.

Lemma is_h600d_sku device :
  is_h600d device = true ->
  py_getitem device "sku" = Ret (JStr "H600D").
Proof.
  unfold is_h600d, py_get, py_getitem.
  destruct device as [ | | | | | | fields]; try discriminate.
  destruct (dict_lookup "sku" fields) as [sku | ]; [ | discriminate].
  destruct sku; simpl; try discriminate.
  intros H. apply String.eqb_eq in H. subst. reflexivity.
Qed.

(** The comprehension that builds the entities keeps exactly the H600D
    devices, in their order, one fresh entity each. *)
Lemma select_lights_spec devices api_key lights :
  Platform.select_lights devices api_key = Ret lights ->
  map _device lights = filter is_h600d devices
  /\ Forall (fresh api_key) lights.
Proof.
  revert lights. induction devices as [ | device devices IH]; intros lights; simpl.
  - intros H. injection H as <-. split; constructor.
  - unfold is_h600d.
    destruct (py_get device "sku" JNull) as [sku | e]; [ | discriminate].
    destruct (py_eq_str sku "H600D").
    + destruct (GoveeLight_init device api_key) as [l | e] eqn:Hinit;
        [ | discriminate].
      destruct (Platform.select_lights devices api_key) as [rest | e];
        [ | discriminate].
      intros H. injection H as <-.
      destruct (IH rest eq_refl) as [Hmap Hfresh].
      unfold GoveeLight_init in Hinit.
      destruct (py_getitem device "deviceName") as [device_name | ] eqn:Hname;
        [ | discriminate].
      destruct (py_getitem device "device") as [id | ] eqn:Hid; [ | discriminate].
      injection Hinit as <-. split.
      * simpl. rewrite Hmap. reflexivity.
      * constructor; [ | exact Hfresh]. repeat split; assumption.
    + apply IH.
Qed.





(** X14. Without a 200 answer the platform adds nothing and does not call
    the host at all.  A configuration without the API key raises before
    any request; an API out of reach raises after the one GET; an answer
    with another status is logged with its text, and the setup returns as
    if all were well. *)
Theorem setup_without_device_list :
  forall (base key : string) (py_str : json -> string)
         (config_entry : ConfigEntry) (tr : list Platform.SetupEvent),
    (forall answer e,
        config_lookup key (data config_entry) = Raise e ->
        Platform.async_setup_entry base key py_str answer config_entry tr
        = (Raise e, (tr ++ [Platform.Log DEBUG "Setting up Govee Lights" []])%list))
    /\ (forall api_key detail,
          config_lookup key (data config_entry) = Ret api_key ->
          Platform.async_setup_entry base key py_str (Platform.GetFail detail)
            config_entry tr
          = (Raise (ClientError detail),
             (tr ++ [Platform.Log DEBUG "Setting up Govee Lights" [];
                     Platform.Get (_API_BASE base ++ "/user/devices")
                                  (JDict [("Govee-API-Key", JStr api_key)])])%list))
    /\ (forall api_key status text body,
          config_lookup key (data config_entry) = Ret api_key ->
          status <> 200 ->
          Platform.async_setup_entry base key py_str
            (Platform.GetResponse status text body) config_entry tr
          = (Ret tt,
             (tr ++ [Platform.Log DEBUG "Setting up Govee Lights" [];
                     Platform.Get (_API_BASE base ++ "/user/devices")
                                  (JDict [("Govee-API-Key", JStr api_key)]);
                     Platform.Log ERROR "Failed to fetch devices: %s"
                                  [JStr text]])%list)).
Proof.
  intros base key py_str config_entry tr. split; [ | split].
  - intros answer e Hkey.
    unfold Platform.async_setup_entry, Platform.sbind, Platform.semit,
      Platform.slift. rewrite Hkey. reflexivity.
  - intros api_key detail Hkey.
    unfold Platform.async_setup_entry, Platform.sbind, Platform.semit,
      Platform.slift, Platform.session_get. rewrite Hkey.
    rewrite <- app_assoc. reflexivity.
  - intros api_key status text body Hkey Hstatus. apply Z.eqb_neq in Hstatus.
    unfold Platform.async_setup_entry, Platform.sbind, Platform.semit,
      Platform.slift, Platform.session_get. rewrite Hkey. cbn [fst snd].
    rewrite Hstatus. cbn [negb]. repeat rewrite <- app_assoc. reflexivity.
Qed.

(** Whatever the answer, a setup calls the host at most once, and then
    with the result of the comprehension. *)
Lemma setup_added base key py_str answer config_entry :
  Platform.added
    (snd (Platform.async_setup_entry base key py_str answer config_entry []))
  = []
  \/ exists api_key items lights,
       config_lookup key (data config_entry) = Ret api_key
       /\ Platform.select_lights items api_key = Ret lights
       /\ Platform.added
            (snd (Platform.async_setup_entry base key py_str answer config_entry []))
          = lights.
Proof.
  unfold Platform.async_setup_entry, Platform.sbind, Platform.semit,
    Platform.slift, Platform.session_get.
  destruct (config_lookup key (data config_entry)) as [api_key | e] eqn:Hkey;
    [ | left; reflexivity].
  destruct answer as [detail | status text body]; [left; reflexivity | ].
  cbn [fst snd]. destruct (status =? 200); cbn [negb]; [ | left; reflexivity].
  destruct body as [body | ]; [ | left; reflexivity].
  destruct (py_get body "data" (JDict [])) as [devices | e]; [ | left; reflexivity].
  destruct (py_len devices) as [found | e]; [ | left; reflexivity].
  destruct (py_iter devices) as [items | e]; [ | left; reflexivity].
  destruct (Platform.device_names py_str items) as [names | e];
    [ | left; reflexivity].
  destruct (Platform.select_lights items api_key) as [lights | e] eqn:Hselect;
    [ | left; reflexivity].
  right. exists api_key, items, lights.
  repeat split; try assumption.
  cbn. rewrite app_nil_r. reflexivity.
Qed.

(** X15. Every entity a setup hands to the host, whatever the answer
    was, belongs to an H600D device, is off with no suppression pending,
    and can reach the network: its first poll, the one made when the host
    activates it, is exactly one network exchange. *)
Theorem added_entities_poll_once :
  forall (base key : string) (py_str : json -> string)
         (answer : Platform.GetOutcome) (config_entry : ConfigEntry)
         (l : GoveeLight),
    In l (Platform.added
            (snd (Platform.async_setup_entry base key py_str answer
                    config_entry []))) ->
    py_getitem (_device l) "sku" = Ret (JStr "H600D")
    /\ Property.is_on l = false
    /\ _skip_next_update l = false
    /\ forall env tr n,
         posts (snd (async_added_to_hass base env (mkWorld l tr n)))
         = S (posts (mkWorld l tr n)).
Proof.
  intros base key py_str answer config_entry l Hin.
  destruct (setup_added base key py_str answer config_entry)
    as [Hnone | [api_key [items [lights [_ [Hselect Hadded]]]]]].
  { rewrite Hnone in Hin. destruct Hin. }
  rewrite Hadded in Hin.
  destruct (select_lights_spec items api_key lights Hselect) as [Hmap Hfresh].
  assert (Hsku : py_getitem (_device l) "sku" = Ret (JStr "H600D")).
  { apply is_h600d_sku.
    assert (Hd : In (_device l) (filter is_h600d items)).
    { rewrite <- Hmap. apply in_map. exact Hin. }
    apply filter_In in Hd. apply Hd. }
  rewrite Forall_forall in Hfresh.
  destruct (Hfresh l Hin) as [Hoff [Hflag [_ [_ [_ [_ Hid]]]]]].
  repeat split; try assumption.
  intros env tr n. unfold async_added_to_hass.
  apply (unskipped_poll_posts base env (mkWorld l tr n)
           (JStr "H600D") (_unique_id l)); assumption.
Qed.

Lemma device_names_raise py_str pre bad post e :
  forallb (has_key "deviceName") pre = true ->
  py_getitem bad "deviceName" = Raise e ->
  Platform.device_names py_str (pre ++ bad :: post) = Raise e.
Proof.
  intros Hpre Hbad. induction pre as [ | d pre IH]; simpl in *.
  - rewrite Hbad. reflexivity.
  - apply andb_true_iff in Hpre. destruct Hpre as [Hd Hpre].
    unfold has_key in Hd.
    destruct (py_getitem d "deviceName"); [ | discriminate Hd].
    rewrite (IH Hpre). reflexivity.
Qed.

(** X16. One device without a [deviceName] in the answer, of whatever
    model, makes the setup raise while it prepares its debug line: the
    count of devices is already logged, and no entity is added, not even
    for the well-formed H600D devices of the same answer. *)
Theorem unnamed_device_breaks_setup :
  forall (base key : string) (py_str : json -> string) (text : string)
         (body devices : json) (pre post : list json) (bad : json) (found : Z)
         (config_entry : ConfigEntry) (api_key : string) (e : PyExn)
         (tr : list Platform.SetupEvent),
    config_lookup key (data config_entry) = Ret api_key ->
    py_get body "data" (JDict []) = Ret devices ->
    py_len devices = Ret found ->
    py_iter devices = Ret (pre ++ bad :: post)%list ->
    forallb (has_key "deviceName") pre = true ->
    py_getitem bad "deviceName" = Raise e ->
    Platform.async_setup_entry base key py_str
      (Platform.GetResponse 200 text (Some body)) config_entry tr
    = (Raise e,
       (tr ++ [Platform.Log DEBUG "Setting up Govee Lights" [];
               Platform.Get (_API_BASE base ++ "/user/devices")
                            (JDict [("Govee-API-Key", JStr api_key)]);
               Platform.Log INFO "Initialised Govee OpenAPI. Found devices: %s"
                            [JInt found]])%list).
Proof.
  intros base key py_str text body devices pre post bad found config_entry
         api_key e tr Hkey Hdata Hlen Hiter Hpre Hbad.
  unfold Platform.async_setup_entry, Platform.sbind, Platform.semit,
    Platform.slift, Platform.session_get.
  rewrite Hkey. cbn [fst snd]. change (200 =? 200) with true. cbn [negb].
  rewrite Hdata, Hlen, Hiter.
  rewrite (device_names_raise py_str pre bad post e Hpre Hbad).
  repeat rewrite <- app_assoc. reflexivity.
Qed.

(* ================================================================== *)
(** ** The integration's slot in hass.data *)

Lemma lookup_set_same key v fields :
  dict_lookup key (dict_set key v fields) = Some v.
Proof.
  induction fields as [ | [k x] fields IH]; simpl.
  - rewrite String.eqb_refl. reflexivity.
  - destruct (String.eqb k key) eqn:Hk; simpl; rewrite Hk; [reflexivity | exact IH].
Qed.

Lemma lookup_set_other key other v fields :
  other <> key ->
  dict_lookup other (dict_set key v fields) = dict_lookup other fields.
Proof.
  intros Hne. induction fields as [ | [k x] fields IH]; simpl.
  - destruct (String.eqb key other) eqn:Hk; [ | reflexivity].
    apply String.eqb_eq in Hk. congruence.
  - destruct (String.eqb k key) eqn:Hk; simpl.
    + apply String.eqb_eq in Hk. subst k.
      destruct (String.eqb key other) eqn:Ho; [ | reflexivity].
      apply String.eqb_eq in Ho. congruence.
    + rewrite IH. reflexivity.
Qed.

Lemma remove_set_new key v fields :
  dict_lookup key fields = None ->
  dict_remove key (dict_set key v fields) = fields.
Proof.
  induction fields as [ | [k x] fields IH]; simpl.
  - intros _. rewrite String.eqb_refl. reflexivity.
  - destruct (String.eqb k key) eqn:Hk; [discriminate | ].
    intros Hnone. simpl. rewrite Hk, (IH Hnone). reflexivity.
Qed.

Lemma set_found_same key v fields :
  dict_lookup key fields = Some v -> dict_set key v fields = fields.
Proof.
  induction fields as [ | [k x] fields IH]; simpl.
  - discriminate.
  - destruct (String.eqb k key) eqn:Hk.
    + intros H. injection H as ->. reflexivity.
    + intros H. rewrite (IH H). reflexivity.
Qed.

Lemma set_set key v v' fields :
  dict_set key v (dict_set key v' fields) = dict_set key v fields.
Proof.
  induction fields as [ | [k x] fields IH]; simpl.
  - rewrite String.eqb_refl. reflexivity.
  - destruct (String.eqb k key) eqn:Hk; simpl; rewrite Hk; [reflexivity | ].
    rewrite IH. reflexivity.
Qed.

(** The setup of an entry whose slot is missing or a dict. *)
Lemma integration_setup_eq domain hass entry :
  (dict_lookup domain (Integration.hass_data hass) = None
   \/ exists entries,
        dict_lookup domain (Integration.hass_data hass) = Some (JDict entries)) ->
  Integration.async_setup_entry domain hass entry
  = (Ret true,
     Integration.mkHass
       (dict_set domain
          (JDict (dict_set (entry_id entry) (entry_data entry)
                    (domain_entries domain hass)))
          (Integration.hass_data hass))
       (Integration.calls hass
        ++ [Integration.ForwardEntrySetups entry ["light"]])%list).
Proof.
  unfold Integration.async_setup_entry, Integration.setdefault_domain,
    domain_entries, py_getitem.
  intros [Hnone | [entries Hsome]].
  - rewrite Hnone. rewrite lookup_set_same. cbn [py_setitem].
    rewrite set_set. reflexivity.
  - rewrite Hsome. rewrite Hsome. reflexivity.
Qed.

(** X17. Setting up an entry, when the integration's slot in [hass.data]
    is missing or a dict, returns [True], forwards the entry to the light
    platform, and stores the entry's data under its id: a later lookup of
    that id finds exactly the data, every other entry of the slot and
    every other key of [hass.data] reads as before. *)
Theorem setup_stores_entry :
  forall (domain : string) (hass : Integration.Hass) (entry : ConfigEntry),
    (dict_lookup domain (Integration.hass_data hass) = None
     \/ exists entries,
          dict_lookup domain (Integration.hass_data hass) = Some (JDict entries)) ->
    let hass' := snd (Integration.async_setup_entry domain hass entry) in
    fst (Integration.async_setup_entry domain hass entry) = Ret true
    /\ Integration.stored domain hass' (entry_id entry) = Ret (entry_data entry)
    /\ (forall id, id <> entry_id entry ->
          dict_lookup id (domain_entries domain hass')
          = dict_lookup id (domain_entries domain hass))
    /\ (forall other, other <> domain ->
          dict_lookup other (Integration.hass_data hass')
          = dict_lookup other (Integration.hass_data hass))
    /\ Integration.calls hass'
       = (Integration.calls hass
          ++ [Integration.ForwardEntrySetups entry ["light"]])%list.
Proof.
  intros domain hass entry Hslot hass'. unfold hass'.
  rewrite (integration_setup_eq domain hass entry Hslot). cbn [fst snd].
  split; [reflexivity | split; [ | split; [ | split]]].
  - unfold Integration.stored, py_getitem. cbn [Integration.hass_data].
    rewrite lookup_set_same, lookup_set_same. reflexivity.
  - intros id Hid. unfold domain_entries at 1. cbn [Integration.hass_data].
    rewrite lookup_set_same. apply lookup_set_other. exact Hid.
  - intros other Hother. cbn [Integration.hass_data].
    apply lookup_set_other. exact Hother.
  - reflexivity.
Qed.

(** X18. Round trip.  Unloading an entry right after setting it up
    returns [True], forwards the unload, and takes the entry out again:
    if the slot existed and did not hold the id before, [hass.data] is
    back to what it was; if the slot was missing, it stays behind as an
    empty dict. *)
Theorem setup_then_unload :
  forall (domain : string) (hass : Integration.Hass) (entry : ConfigEntry),
    dict_lookup (entry_id entry) (domain_entries domain hass) = None ->
    let hass' := snd (Integration.async_setup_entry domain hass entry) in
    let hass'' := snd (Integration.async_unload_entry domain hass' entry) in
    (forall entries,
        dict_lookup domain (Integration.hass_data hass) = Some (JDict entries) ->
        fst (Integration.async_unload_entry domain hass' entry) = Ret true
        /\ Integration.hass_data hass'' = Integration.hass_data hass)
    /\ (dict_lookup domain (Integration.hass_data hass) = None ->
        fst (Integration.async_unload_entry domain hass' entry) = Ret true
        /\ Integration.hass_data hass''
           = dict_set domain (JDict []) (Integration.hass_data hass)).
Proof.
  intros domain hass entry Hnew hass' hass''. split.
  - intros entries Hsome. unfold hass'', hass'.
    rewrite (integration_setup_eq domain hass entry
               (or_intror (ex_intro _ entries Hsome))).
    cbn [snd]. unfold Integration.async_unload_entry, py_getitem.
    cbn [Integration.hass_data]. rewrite lookup_set_same.
    cbn [py_pop]. rewrite lookup_set_same. cbn [fst snd].
    split; [reflexivity | ]. cbn [Integration.hass_data].
    rewrite (remove_set_new _ _ _ Hnew), set_set.
    unfold domain_entries. rewrite Hsome.
    apply set_found_same. exact Hsome.
  - intros Hnone. unfold hass'', hass'.
    rewrite (integration_setup_eq domain hass entry (or_introl Hnone)).
    cbn [snd]. unfold Integration.async_unload_entry, py_getitem.
    cbn [Integration.hass_data]. rewrite lookup_set_same.
    cbn [py_pop]. rewrite lookup_set_same. cbn [fst snd].
    split; [reflexivity | ]. cbn [Integration.hass_data].
    rewrite (remove_set_new _ _ _ Hnew), set_set.
    unfold domain_entries. rewrite Hnone. reflexivity.
Qed.

(** X19. Unloading what was never set up fails late: the unload is
    forwarded to the light platform first, and only then does the missing
    slot, or the missing id in the slot, raise its [KeyError];
    [hass.data] is left as it was. *)
Theorem unload_of_unknown_entry :
  forall (domain : string) (hass : Integration.Hass) (entry : ConfigEntry),
    let forwarded :=
      (Integration.calls hass
       ++ [Integration.ForwardEntryUnload entry "light"])%list in
    (dict_lookup domain (Integration.hass_data hass) = None ->
       Integration.async_unload_entry domain hass entry
       = (Raise (KeyError domain),
          Integration.mkHass (Integration.hass_data hass) forwarded))
    /\ (forall entries,
          dict_lookup domain (Integration.hass_data hass) = Some (JDict entries) ->
          dict_lookup (entry_id entry) entries = None ->
          Integration.async_unload_entry domain hass entry
          = (Raise (KeyError (entry_id entry)),
             Integration.mkHass (Integration.hass_data hass) forwarded)).
Proof.
  intros domain hass entry forwarded. split.
  - intros Hnone. unfold Integration.async_unload_entry, py_getitem.
    rewrite Hnone. reflexivity.
  - intros entries Hsome Hid. unfold Integration.async_unload_entry, py_getitem.
    rewrite Hsome. cbn [py_pop]. rewrite Hid. reflexivity.
Qed.

(** X20. Setting up the same entry twice stores it once: the second
    setup leaves [hass.data] as the first one made it, and forwards the
    entry to the platform a second time. *)
Theorem setup_twice :
  forall (domain : string) (hass : Integration.Hass) (entry : ConfigEntry),
    (dict_lookup domain (Integration.hass_data hass) = None
     \/ exists entries,
          dict_lookup domain (Integration.hass_data hass) = Some (JDict entries)) ->
    let hass' := snd (Integration.async_setup_entry domain hass entry) in
    let hass'' := snd (Integration.async_setup_entry domain hass' entry) in
    fst (Integration.async_setup_entry domain hass' entry) = Ret true
    /\ Integration.hass_data hass'' = Integration.hass_data hass'
    /\ Integration.calls hass''
       = (Integration.calls hass
          ++ [Integration.ForwardEntrySetups entry ["light"];
              Integration.ForwardEntrySetups entry ["light"]])%list.
Proof.
  intros domain hass entry Hslot hass' hass''.
  assert (Hslot' : dict_lookup domain (Integration.hass_data hass') = None
                   \/ exists entries,
                        dict_lookup domain (Integration.hass_data hass')
                        = Some (JDict entries)).
  { right. unfold hass'. rewrite (integration_setup_eq domain hass entry Hslot).
    cbn [snd Integration.hass_data]. rewrite lookup_set_same. eauto. }
  unfold hass''. rewrite (integration_setup_eq domain hass' entry Hslot').
  cbn [fst snd Integration.hass_data Integration.calls].
  split; [reflexivity | ].
  unfold hass'. rewrite (integration_setup_eq domain hass entry Hslot).
  cbn [snd Integration.hass_data Integration.calls].
  split.
  - unfold domain_entries at 1. cbn [Integration.hass_data].
    rewrite lookup_set_same, set_set, set_set. reflexivity.
  - rewrite <- app_assoc. reflexivity.
Qed.

(* ================================================================== *)
(** ** The further properties at work on the samples *)

Lemma identity_of_lamp_after_use :
  Property.brightness
    (light (run Sample.base_url (Sample.api 200 (Sample.state_body (JInt 1)))
              [Cmd TurnOn; Poll; Poll; Cmd TurnOff] Sample.idle)) = 255
  /\ Ret (JStr "Lamp")
     = Ret (Property.name
              (light (run Sample.base_url
                        (Sample.api 200 (Sample.state_body (JInt 1)))
                        [Cmd TurnOn; Poll; Poll; Cmd TurnOff] Sample.idle))).
Proof.
  destruct (identity_and_appearance_never_change Sample.base_url
              (Sample.api 200 (Sample.state_body (JInt 1)))
              Sample.lamp "key" (Sample.entity Sample.lamp false false) [] 0%nat
              [Cmd TurnOn; Poll; Poll; Cmd TurnOff] eq_refl)
    as [Hname [_ [Hbrightness _]]].
  split; [exact Hbrightness | exact Hname].
Defined.

Lemma command_request_lamp :
  posts SampleRun.cut_off = S (posts Sample.idle)
  /\ (exists rest,
        trace SampleRun.cut_off
        = EvPost "https://openapi.api.govee.com/router/api/v1/device/control"
                 (JDict [("Govee-API-Key", JStr "key")])
                 (JDict [("requestId", JStr "8d8ac610-566d-4ef0-9c22-186b2a5ed793");
                         ("payload",
                          JDict [("sku", JStr "H600D");
                                 ("device", JStr "AA:BB");
                                 ("capability",
                                  JDict [("type", JStr "devices.capabilities.on_off");
                                         ("instance", JStr "powerSwitch");
                                         ("value", JInt 1)])])])
          :: rest)
  /\ fst (exec_command Sample.base_url (Sample.api 200 (JDict [])) TurnOn
            Sample.idle) = Ret tt.
Proof.
  destruct (command_request Sample.base_url Sample.unreachable TurnOn
              Sample.idle (JStr "H600D") (JStr "AA:BB") [] []
              [("type", JStr "devices.capabilities.on_off");
               ("instance", JStr "powerSwitch")]
              eq_refl eq_refl eq_refl eq_refl eq_refl)
    as [Hposts [Htrace _]].
  destruct (command_request Sample.base_url (Sample.api 200 (JDict [])) TurnOn
              Sample.idle (JStr "H600D") (JStr "AA:BB") [] []
              [("type", JStr "devices.capabilities.on_off");
               ("instance", JStr "powerSwitch")]
              eq_refl eq_refl eq_refl eq_refl eq_refl)
    as [_ [_ Hret]].
  split; [exact Hposts | split; [exact Htrace | ]].
  exact (Hret 200 (JDict []) eq_refl).
Defined.

Lemma command_without_capability_dim_lamp :
  fst (exec_command Sample.base_url (Sample.api 400 Sample.error_body) TurnOn
         (Sample.world Sample.dim_lamp false false)) = Ret tt
  /\ _state (light (snd (exec_command Sample.base_url
                           (Sample.api 400 Sample.error_body) TurnOn
                           (Sample.world Sample.dim_lamp false false)))) = true.
Proof.
  destruct (command_without_capability_is_sent Sample.base_url
              (Sample.api 400 Sample.error_body) TurnOn
              (Sample.world Sample.dim_lamp false false)
              (JStr "H600D") (JStr "AA:BB")
              [JDict [("type", JStr "devices.capabilities.range");
                      ("instance", JStr "brightness")]]
              400 Sample.error_body eq_refl eq_refl eq_refl eq_refl eq_refl)
    as [Hret [Hstate _]].
  split; [exact Hret | exact Hstate].
Defined.

Lemma raised_command_lamp :
  _state (light (snd (exec_command Sample.base_url Sample.unreachable TurnOn
                        Sample.idle))) = true
  /\ _skip_next_update
       (light (snd (exec_command Sample.base_url Sample.unreachable TurnOn
                      Sample.idle))) = false
  /\ ha_writes (snd (exec_command Sample.base_url Sample.unreachable TurnOn
                       Sample.idle)) = 0%nat.
Proof.
  exact (raised_command_effects Sample.base_url Sample.unreachable TurnOn
           Sample.idle (ClientError "Cannot connect to host") eq_refl).
Defined.

Lemma returned_command_lamp :
  ha_writes (snd (exec_command Sample.base_url (Sample.api 500 Sample.error_body)
                    TurnOff (Sample.world Sample.lamp true false))) = 1%nat.
Proof.
  assert (Hexec : exec_command Sample.base_url (Sample.api 500 Sample.error_body)
                    TurnOff (Sample.world Sample.lamp true false)
                  = (Ret tt,
                     snd (exec_command Sample.base_url
                            (Sample.api 500 Sample.error_body) TurnOff
                            (Sample.world Sample.lamp true false))))
    by (vm_compute; reflexivity).
  exact (proj1 (returned_command_tells_host Sample.base_url
                  (Sample.api 500 Sample.error_body) TurnOff
                  (Sample.world Sample.lamp true false) _ Hexec)).
Defined.

Lemma raised_poll_lamp :
  light (snd (async_update Sample.base_url Sample.unreachable
                (Sample.world Sample.lamp true false)))
  = Sample.entity Sample.lamp true false.
Proof.
  exact (proj1 (raised_poll_changes_nothing Sample.base_url Sample.unreachable
                  (Sample.world Sample.lamp true false)
                  (ClientError "Cannot connect to host") eq_refl)).
Defined.

Lemma poll_tells_host_lamp :
  ha_writes (snd (async_update Sample.base_url
                    (Sample.api 200 (Sample.state_body (JInt 1))) Sample.pending))
  = 0%nat
  /\ ha_writes (snd (async_update Sample.base_url
                       (Sample.api 200 (Sample.state_body (JInt 1))) Sample.idle))
     = 1%nat.
Proof.
  split.
  - exact (proj1 (poll_tells_host Sample.base_url
                    (Sample.api 200 (Sample.state_body (JInt 1))) Sample.pending)
                 eq_refl).
  - exact (proj1 (proj2 (poll_tells_host Sample.base_url
                           (Sample.api 200 (Sample.state_body (JInt 1)))
                           Sample.idle) eq_refl eq_refl)).
Defined.

Lemma poll_request_lamp :
  exists rest,
    trace (snd (async_update Sample.base_url Sample.unreachable Sample.idle))
    = EvPost "https://openapi.api.govee.com/router/api/v1/device/state"
             (JDict [("Govee-API-Key", JStr "key")])
             (JDict [("requestId", JStr "8d8ac610-566d-4ef0-9c22-186b2a5ed793");
                     ("payload", JDict [("sku", JStr "H600D");
                                        ("device", JStr "AA:BB")])])
      :: rest.
Proof.
  exact (poll_request Sample.base_url Sample.unreachable Sample.idle
           (JStr "H600D") (JStr "AA:BB") eq_refl eq_refl eq_refl).
Defined.

Lemma resolver_raises_on_untyped_entry :
  _build_capability "devices.capabilities.on_off" (JInt 1)
    (Sample.world SampleHost.lamp_with_untyped_capability false false)
  = (Raise (KeyError "type"),
     Sample.world SampleHost.lamp_with_untyped_capability false false).
Proof.
  exact (proj1 (resolver_raises_on_malformed_list
                  (Sample.world SampleHost.lamp_with_untyped_capability false false)
                  "devices.capabilities.on_off" (JInt 1))
               [] (JDict [("instance", JStr "brightness")])
               [Sample.on_off_capability] (KeyError "type")
               eq_refl eq_refl eq_refl).
Defined.

Lemma construction_of_lamp :
  GoveeLight_init Sample.lamp "key" = Ret (Sample.entity Sample.lamp false false)
  /\ GoveeLight_init SampleHost.unnamed "key" = Raise (KeyError "deviceName").
Proof.
  destruct (construction_spec Sample.lamp "key") as [Hiff _].
  destruct (construction_spec SampleHost.unnamed "key") as [_ [Hname _]].
  split.
  - apply Hiff. eexists. exists (JStr "Lamp"), (JStr "AA:BB").
    repeat split; reflexivity.
  - exact (Hname _ eq_refl eq_refl).
Defined.

Lemma unreadable_sku_lamp :
  exec_command Sample.base_url (Sample.api 200 (JDict [])) TurnOn
    (Sample.world SampleHost.lamp_without_sku false false)
  = (Raise (KeyError "sku"),
     mkWorld (Sample.entity SampleHost.lamp_without_sku true false) [] 1).
Proof.
  exact (proj2 (unreadable_sku_stops_before_network Sample.base_url
                  (Sample.api 200 (JDict []))
                  (Sample.world SampleHost.lamp_without_sku false false)
                  (KeyError "sku") eq_refl) TurnOn).
Defined.


Lemma setup_without_device_list_samples :
  fst (Platform.async_setup_entry Sample.base_url SampleHost.conf_api_key
         SampleHost.str_of (Platform.GetResponse 401 "Unauthorized" None)
         SampleHost.entry []) = Ret tt
  /\ fst (Platform.async_setup_entry Sample.base_url SampleHost.conf_api_key
            SampleHost.str_of (Platform.GetResponse 200 "" None)
            SampleHost.keyless_entry []) = Raise (KeyError "api_key").
Proof.
  assert (Hstatus : 401 <> 200) by lia.
  destruct (setup_without_device_list Sample.base_url SampleHost.conf_api_key
              SampleHost.str_of SampleHost.entry []) as [_ [_ Hother]].
  destruct (setup_without_device_list Sample.base_url SampleHost.conf_api_key
              SampleHost.str_of SampleHost.keyless_entry []) as [Hkeyless _].
  split.
  - rewrite (Hother "key" 401 "Unauthorized" None eq_refl Hstatus). reflexivity.
  - rewrite (Hkeyless (Platform.GetResponse 200 "" None) (KeyError "api_key")
               eq_refl). reflexivity.
Defined.

Lemma added_lamp_polls_once :
  posts (snd (async_added_to_hass Sample.base_url
                (Sample.api 200 (Sample.state_body (JInt 1)))
                (mkWorld (Sample.entity Sample.lamp false false) [] 0)))
  = 1%nat.
Proof.
  assert (Hin : In (Sample.entity Sample.lamp false false)
                  (Platform.added
                     (snd (Platform.async_setup_entry Sample.base_url
                             SampleHost.conf_api_key SampleHost.str_of
                             (Platform.GetResponse 200 ""
                                (Some (SampleHost.devices_body
                                         [Sample.lamp; SampleHost.plug])))
                             SampleHost.entry [])))).
  { vm_compute. left. reflexivity. }
  destruct (added_entities_poll_once Sample.base_url SampleHost.conf_api_key
              SampleHost.str_of _ SampleHost.entry _ Hin) as [_ [_ [_ Hpoll]]].
  exact (Hpoll (Sample.api 200 (Sample.state_body (JInt 1))) [] 0%nat).
Defined.

Lemma unnamed_device_breaks_setup_sample :
  fst (Platform.async_setup_entry Sample.base_url SampleHost.conf_api_key
         SampleHost.str_of
         (Platform.GetResponse 200 ""
            (Some (SampleHost.devices_body [Sample.lamp; SampleHost.unnamed])))
         SampleHost.entry [])
  = Raise (KeyError "deviceName").
Proof.
  rewrite (unnamed_device_breaks_setup Sample.base_url SampleHost.conf_api_key
             SampleHost.str_of ""
             (SampleHost.devices_body [Sample.lamp; SampleHost.unnamed])
             (JList [Sample.lamp; SampleHost.unnamed])
             [Sample.lamp] [] SampleHost.unnamed 2 SampleHost.entry "key"
             (KeyError "deviceName") [] eq_refl eq_refl eq_refl eq_refl eq_refl
             eq_refl).
  reflexivity.
Defined.

Lemma setup_stores_entry_sample :
  Integration.stored SampleHost.domain
    (snd (Integration.async_setup_entry SampleHost.domain SampleHost.hass
            SampleHost.entry))
    "0123456789abcdef"
  = Ret (JDict [("api_key", JStr "key")]).
Proof.
  assert (Hslot : dict_lookup SampleHost.domain
                    (Integration.hass_data SampleHost.hass) = None
                  \/ exists entries,
                       dict_lookup SampleHost.domain
                         (Integration.hass_data SampleHost.hass)
                       = Some (JDict entries))
    by (left; reflexivity).
  exact (proj1 (proj2 (setup_stores_entry SampleHost.domain SampleHost.hass
                         SampleHost.entry Hslot))).
Defined.

Lemma setup_then_unload_sample :
  Integration.hass_data
    (snd (Integration.async_unload_entry SampleHost.domain
            (snd (Integration.async_setup_entry SampleHost.domain
                    SampleHost.hass_with_slot SampleHost.entry))
            SampleHost.entry))
  = Integration.hass_data SampleHost.hass_with_slot.
Proof.
  exact (proj2 (proj1 (setup_then_unload SampleHost.domain
                         SampleHost.hass_with_slot SampleHost.entry eq_refl)
                      [] eq_refl)).
Defined.

Lemma unload_of_unknown_entry_sample :
  fst (Integration.async_unload_entry SampleHost.domain SampleHost.hass
         SampleHost.entry) = Raise (KeyError "govee_openapi")
  /\ fst (Integration.async_unload_entry SampleHost.domain
            SampleHost.hass_with_slot SampleHost.entry)
     = Raise (KeyError "0123456789abcdef").
Proof.
  destruct (unload_of_unknown_entry SampleHost.domain SampleHost.hass
              SampleHost.entry) as [Hslot _].
  destruct (unload_of_unknown_entry SampleHost.domain SampleHost.hass_with_slot
              SampleHost.entry) as [_ Hid].
  split.
  - rewrite (Hslot eq_refl). reflexivity.
  - rewrite (Hid [] eq_refl eq_refl). reflexivity.
Defined.

Lemma setup_twice_sample :
  Integration.hass_data
    (snd (Integration.async_setup_entry SampleHost.domain
            (snd (Integration.async_setup_entry SampleHost.domain SampleHost.hass
                    SampleHost.entry))
            SampleHost.entry))
  = Integration.hass_data
      (snd (Integration.async_setup_entry SampleHost.domain SampleHost.hass
              SampleHost.entry)).
Proof.
  assert (Hslot : dict_lookup SampleHost.domain
                    (Integration.hass_data SampleHost.hass) = None
                  \/ exists entries,
                       dict_lookup SampleHost.domain
                         (Integration.hass_data SampleHost.hass)
                       = Some (JDict entries))
    by (left; reflexivity).
  exact (proj1 (proj2 (setup_twice SampleHost.domain SampleHost.hass
                         SampleHost.entry Hslot))).
Defined.
